(** * Discord-Cortext: the rank authority and the TF System API client

    A shallow embedding of [src/bot/tf_api_client.py]: the rank
    hierarchy and [can_modify_rank] (pure decision logic), and the
    client's request primitive [_request] with the convenience
    operations [find_member_by_name] and [change_rank_by_name] built on
    it.

    Python values are an inductive type [pyval] of what [json] parsing
    yields; a dict is a [gmap] keyed by strings.  Python exceptions are
    explicit: pure code returns an [outcome], the client runs in a
    state-and-exception monad [M] whose state records every HTTP
    request handed to the transport. *)

From Stdlib Require Import ZArith.
From stdpp Require Import gmap strings list fin_maps pretty.

#[local] Set Warnings "-register-all".
#[local] Open Scope Z_scope.

(** ** Python values *)

Inductive pyval :=
| PNone
| PBool (b : bool)
| PInt (z : Z)
| PFloat (m e : Z)          (* the finite float m * 2^e; no NaN, no infinity *)
| PStr (s : string)
| PList (l : list pyval)
| PDict (d : gmap string pyval).

(** [bool(v)]: the truth value Python gives to [v] in [if v:],
    [a and b], [a or b] and [not v]. *)
Definition py_truthy (v : pyval) : bool :=
  match v with
  | PNone => false
  | PBool b => b
  | PInt z => negb (z =? 0)
  | PFloat m _ => negb (m =? 0)
  | PStr s => negb (bool_decide (s = ""))
  | PList l => negb (bool_decide (length l = 0%nat))
  | PDict d => negb (bool_decide (size d = 0%nat))
  end.

(** [type(v).__name__], as it appears in the interpreter's messages. *)
Definition py_type_name (v : pyval) : string :=
  match v with
  | PNone => "NoneType"
  | PBool _ => "bool"
  | PInt _ => "int"
  | PFloat _ _ => "float"
  | PStr _ => "str"
  | PList _ => "list"
  | PDict _ => "dict"
  end.

(** Whether [hash(v)] is defined: lists and dicts are unhashable. *)
Definition py_hashable (v : pyval) : bool :=
  match v with
  | PList _ | PDict _ => false
  | _ => true
  end.

(** ** Exceptions

    The [try] statement of [_request] tells three kinds of exception
    apart: instances of [aiohttp.ClientError], other instances of
    [Exception], and what derives from [BaseException] only
    ([asyncio.CancelledError], [KeyboardInterrupt], [SystemExit]). *)

Inductive exc_base := ClientError | PlainException | BaseExceptionOnly.

Record py_exc := PyExc {
  exc_type : string;     (* class name *)
  exc_base_of : exc_base;
  exc_str : string       (* str(e) *)
}.

Inductive outcome (A : Type) :=
| Returns (a : A)
| Raises (e : py_exc).
Arguments Returns {A} a.
Arguments Raises {A} e.

#[global] Instance outcome_ret : MRet outcome := λ A a, Returns a.
#[global] Instance outcome_bind : MBind outcome := λ A B k o,
  match o with
  | Returns a => k a
  | Raises e => Raises e
  end.

Definition TypeError (msg : string) : py_exc := PyExc "TypeError" PlainException msg.
Definition KeyError (msg : string) : py_exc := PyExc "KeyError" PlainException msg.
Definition IndexError (msg : string) : py_exc := PyExc "IndexError" PlainException msg.
Definition AttributeError (msg : string) : py_exc :=
  PyExc "AttributeError" PlainException msg.

Definition squote (s : string) : string := "'" +:+ s +:+ "'".

(** The rank hierarchy, [RANK_HIERARCHY] (lower number = lower rank). *)
Definition RANK_HIERARCHY : gmap string Z :=
  list_to_map
    [ ("Aspirant", 1);
      ("Novice", 2);
      ("Adept", 3);
      ("Crusader", 4);
      ("Paladin", 5);
      ("Exemplar", 6);
      ("Prospect", 7);
      ("Commander", 8);
      ("Marshal", 9);
      ("General", 10);
      ("Chief General", 11) ].

(** [RANK_HIERARCHY.get(rank_name, 0)].  A key that is not a string is
    never in the table; a key that cannot be hashed makes [dict.get]
    raise. *)
Definition get_rank_level (rank_name : pyval) : outcome Z :=
  match rank_name with
  | PStr s => Returns (default 0 (RANK_HIERARCHY !! s))
  | v =>
      if py_hashable v then Returns 0
      else Raises (TypeError ("unhashable type: " +:+ squote (py_type_name v)))
  end.

(** The table's names from the lowest rank to the highest, and the
    position (counted from 1) of a name in such a list, 0 when the name
    is not in it. *)
Definition rank_order : list string :=
  [ "Aspirant"; "Novice"; "Adept"; "Crusader"; "Paladin"; "Exemplar";
    "Prospect"; "Commander"; "Marshal"; "General"; "Chief General" ].

Fixpoint position_from (n : Z) (s : string) (l : list string) : Z :=
  match l with
  | [] => 0
  | x :: l' => if decide (x = s) then n else position_from (n + 1) s l'
  end.

Definition position (s : string) : Z := position_from 1 s rank_order.

(** [a in b] on strings: [needle] occurs in [hay]. *)
Definition occurs_in (needle hay : string) : Prop :=
  ∃ pre post, hay = pre +:+ needle +:+ post.

Section Authority.

(** [repr] is a built-in of the interpreter; the code reaches it
    only through f-strings and [str(e)], and it is a parameter
    here. *)
Variable py_repr : pyval → string.

(** [str(v)], which is what an f-string field [{v}] inserts, where
    CPython computes it: see [str_defined] for the values on which it
    raises instead. *)
Definition py_str (v : pyval) : string :=
  match v with
  | PStr s => s
  | _ => py_repr v
  end.

(** The truth value of an optional id in [target_member_id and ...]:
    [None] and [0] are both false. *)
Definition id_truthy (i : option Z) : bool :=
  match i with
  | None => false
  | Some z => negb (z =? 0)
  end.

(** [a == b] on the optional ids. *)
Definition id_eqb (a b : option Z) : bool :=
  match a, b with
  | Some x, Some y => x =? y
  | None, None => true
  | _, _ => false
  end.

Definition self_rank_msg : string := "You cannot change your own rank.".

Definition unknown_user_msg (user_rank : pyval) : string :=
  "Unknown user rank: " +:+ py_str user_rank.

Definition unknown_target_msg (target_rank : pyval) : string :=
  "Unknown target rank: " +:+ py_str target_rank.

Definition not_higher_msg (user_rank target_rank : pyval) : string :=
  "You don't have permission to change this member's rank. "
  +:+ "The target is a **" +:+ py_str target_rank
  +:+ "** and you are a **" +:+ py_str user_rank +:+ "**. "
  +:+ "You can only change ranks of members below your level.".

Definition can_modify_rank (user_rank target_rank : pyval)
    (target_member_id user_member_id : option Z) : outcome (bool * string) :=
  (* Check if trying to modify own rank *)
  if id_truthy target_member_id && id_truthy user_member_id
     && id_eqb target_member_id user_member_id
  then Returns (false, self_rank_msg)
  else
    user_level ← get_rank_level user_rank;
    target_level ← get_rank_level target_rank;
    (* Unknown rank check *)
    if user_level =? 0 then Returns (false, unknown_user_msg user_rank)
    else if target_level =? 0 then Returns (false, unknown_target_msg target_rank)
    (* Permission check: user must be higher rank than target *)
    else if user_level <=? target_level
    then Returns (false, not_higher_msg user_rank target_rank)
    else Returns (true, "Permission granted").

End Authority.

(** ** Attribute access and subscripting *)

(** [obj.get(key)]: a dict answers [None] for a missing key; no other
    JSON value has a [get] attribute. *)
Definition py_get (obj : pyval) (key : string) : outcome pyval :=
  match obj with
  | PDict d => Returns (default PNone (d !! key))
  | v =>
      Raises (AttributeError
                (squote (py_type_name v) +:+ " object has no attribute 'get'"))
  end.

(** The [matches] list of a search result; empty when the field is
    absent or not a list. *)
Definition matches_of (d : gmap string pyval) : list pyval :=
  match d !! "matches" with
  | Some (PList l) => l
  | _ => []
  end.

(** Whether the [success] flag of a result is set. *)
Definition success_of (d : gmap string pyval) : bool :=
  py_truthy (default PNone (d !! "success")).

(** The integer a subscript stands for: [bool] is a subclass of [int]. *)
Definition py_as_index (key : pyval) : option Z :=
  match key with
  | PInt i => Some i
  | PBool b => Some (if b then 1 else 0)
  | _ => None
  end.

(** [seq[i]] on a sequence: a negative index counts from the end. *)
Definition py_index {A} (l : list A) (i : Z) : option A :=
  if 0 <=? i then l !! Z.to_nat i
  else if 0 <=? i + Z.of_nat (length l) then l !! Z.to_nat (i + Z.of_nat (length l))
  else None.

Section Subscript.

Variable py_repr : pyval → string.

(** [obj[key]].  [str(KeyError(k))] is [repr(k)].  A string is indexed
    by its characters, which stand for code points below 256. *)
Definition py_getitem (obj key : pyval) : outcome pyval :=
  match obj with
  | PDict d =>
      match key with
      | PStr k =>
          match d !! k with
          | Some v => Returns v
          | None => Raises (KeyError (py_repr key))
          end
      | _ =>
          if py_hashable key then Raises (KeyError (py_repr key))
          else Raises (TypeError ("unhashable type: " +:+ squote (py_type_name key)))
      end
  | PList l =>
      match py_as_index key with
      | Some i =>
          match py_index l i with
          | Some v => Returns v
          | None => Raises (IndexError "list index out of range")
          end
      | None =>
          Raises (TypeError ("list indices must be integers or slices, not "
                             +:+ py_type_name key))
      end
  | PStr s =>
      match py_as_index key with
      | Some i =>
          match py_index (String.list_ascii_of_string s) i with
          | Some c => Returns (PStr (String c ""))
          | None => Raises (IndexError "string index out of range")
          end
      | None =>
          Raises (TypeError ("string indices must be integers, not "
                             +:+ squote (py_type_name key)))
      end
  | v => Raises (TypeError (squote (py_type_name v) +:+ " object is not subscriptable"))
  end.

End Subscript.

(** A dict display [{k1: v1, ..., **data}]: the keys written out come
    first and [**data] is merged over them, so a key of [data] replaces
    a written one; [data] must be a mapping. *)
Definition dict_unpack (written : gmap string pyval) (data : pyval) : outcome pyval :=
  match data with
  | PDict d => Returns (PDict (d ∪ written))
  | v => Raises (TypeError (squote (py_type_name v) +:+ " object is not a mapping"))
  end.

(** The envelope [{'success': False, 'error': ..., 'message': ...}]. *)
Definition error_envelope (error message : string) : gmap string pyval :=
  {[ "success" := PBool false; "error" := PStr error; "message" := PStr message ]}.

(** ** The transport and the client monad *)

Record http_request := HttpRequest {
  req_method : string;
  req_url : string;
  req_headers : gmap string string;
  req_params : option (gmap string pyval);   (* params=... *)
  req_json : option (gmap string pyval)      (* json=... *)
}.

(** What one [session.request(...)] followed by [response.json()] can
    do: the request raises, or a response with a status arrives whose
    body parses to a value or raises in turn. *)
Inductive http_result :=
| RequestRaises (e : py_exc)
| Response (status : Z) (json : outcome pyval).

(** The observable history of a run: the requests handed to the
    transport, oldest first, and the arguments of every call the client
    made to [can_modify_rank]. *)
Record world := World {
  issued : list http_request;
  authority_calls : list (pyval * pyval)
}.

Definition M (A : Type) : Type := world → outcome A * world.

#[global] Instance M_ret : MRet M := λ A a w, (Returns a, w).
#[global] Instance M_bind : MBind M := λ A B k m w,
  match m w with
  | (Returns a, w') => k a w'
  | (Raises e, w') => (Raises e, w')
  end.

(** A pure computation inside the client. *)
Definition lift {A} (o : outcome A) : M A := λ w, (o, w).

(** [try: body except ... as e: handler e].  A handler that does not
    match re-raises. *)
Definition try_except {A} (body : M A) (handler : py_exc → M A) : M A := λ w,
  match body w with
  | (Returns a, w') => (Returns a, w')
  | (Raises e, w') => handler e w'
  end.

Record kwargs := Kwargs {
  kw_params : option (gmap string pyval);
  kw_json : option (gmap string pyval)
}.

Record TFSystemAPI := {
  api_url : string;
  api_key : string;
  headers : gmap string string
}.

Definition rate_limit_msg : string :=
  "Rate limit exceeded. Please wait a moment and try again.".

(** [a or b] on an optional string: [None] and [''] are false. *)
Definition str_truthy (o : option string) : bool :=
  match o with
  | Some s => negb (bool_decide (s = ""))
  | None => false
  end.

Definition str_or (o : option string) (dflt : string) : string :=
  match o with
  | Some s => if bool_decide (s = "") then dflt else s
  | None => dflt
  end.

(** The one-character string holding a double quote. *)
Definition dquote : string := String (Ascii.ascii_of_nat 34) "".

Section Client.

Variable py_repr : pyval → string.

(** The remote service and the network, as the client sees them: the
    result of a request, given the requests issued before it. *)
Variable transport : list http_request → http_request → http_result.

Variable self : TFSystemAPI.

(** [session.request(method, url, headers=self.headers, **kwargs)]:
    the request is handed to the transport, which raises or delivers
    a response. *)
Definition session_request (method url : string) (kw : kwargs)
    : M (Z * outcome pyval) := λ w,
  let req := HttpRequest method url (headers self) (kw_params kw) (kw_json kw) in
  let w' := World (issued w ++ [req]) (authority_calls w) in
  match transport (issued w) req with
  | RequestRaises e => (Raises e, w')
  | Response status json => (Returns (status, json), w')
  end.

(** The request primitive.  Opening and closing the session and
    releasing the response are taken not to raise; everything that can
    raise is inside the [try]. *)
Definition _request (method endpoint : string) (kw : kwargs) : M pyval :=
  let url := api_url self +:+ endpoint in
  try_except
    ('(status, json) ← session_request method url kw;
     data ← lift json;
     (* Check for rate limiting *)
     if status =? 429 then
       lift (dict_unpack (error_envelope "rate_limit" rate_limit_msg) data)
     else mret data)
    (λ e,
       match exc_base_of e with
       | ClientError =>
           mret (PDict (error_envelope "connection_error"
                          ("Failed to connect to TF System: " +:+ exc_str e)))
       | PlainException =>
           mret (PDict (error_envelope "unknown_error"
                          ("Unexpected error: " +:+ exc_str e)))
       | BaseExceptionOnly => lift (Raises e)
       end).

Definition search_member (name field : string) : M pyval :=
  let params : gmap string pyval := {[ "q" := PStr name; "field" := PStr field ]} in
  _request "GET" "/members/search" (Kwargs (Some params) None).

Definition change_member_rank (member_id : pyval) (new_rank : string)
    (reason discord_user_id : option string) : M pyval :=
  let data : gmap string pyval :=
    {[ "rank" := PStr new_rank;
       "reason" := PStr (str_or reason "Changed via Discord Bot");
       "promoted_by" := PStr "Discord Bot" ]} in
  let data :=
    match discord_user_id with
    | Some uid => if str_truthy discord_user_id
                  then <["discord_user_id" := PStr uid]> data else data
    | None => data
    end in
  _request "PATCH" ("/members/" +:+ py_str py_repr member_id +:+ "/rank")
           (Kwargs None (Some data)).

(** Lines 376-379: the first match of a search result, or [None]. *)
Definition first_match (result : pyval) : outcome pyval :=
  success ← py_get result "success";
  if py_truthy success then
    matches ← py_get result "matches";
    if py_truthy matches then
      found ← py_getitem py_repr result (PStr "matches");
      py_getitem py_repr found (PInt 0)
    else Returns PNone
  else Returns PNone.

Definition find_member_by_name (name : string) : M pyval :=
  result ← search_member name "both";
  lift (first_match result).

(** The call [can_modify_rank(user_rank=..., target_rank=...)] made by
    the client, recorded in the history. *)
Definition call_can_modify_rank (user_rank target_rank : pyval)
    : M (bool * string) := λ w,
  (can_modify_rank py_repr user_rank target_rank None None,
   World (issued w) (authority_calls w ++ [(user_rank, target_rank)])).

Definition member_not_found_msg (member_name : string) : string :=
  "Could not find member with name " +:+ dquote +:+ member_name +:+ dquote.

Definition change_rank_by_name (member_name new_rank : string)
    (reason discord_user_id user_rank : option string) : M pyval :=
  (* Find member first *)
  member ← find_member_by_name member_name;
  if negb (py_truthy member) then
    mret (PDict (error_envelope "member_not_found"
                   (member_not_found_msg member_name)))
  else
    (* Change rank *)
    let change : M pyval :=
      member_id ← lift (py_getitem py_repr member (PStr "id"));
      change_member_rank member_id new_rank reason discord_user_id in
    (* Check permissions if user_rank is provided *)
    match user_rank with
    | Some rank =>
        if str_truthy user_rank then
          target_rank ← lift (py_getitem py_repr member (PStr "current_rank"));
          '(can_modify, reason_msg) ← call_can_modify_rank (PStr rank) target_rank;
          if negb can_modify then
            mret (PDict (error_envelope "permission_denied" reason_msg))
          else change
        else change
    | None => change
    end.

(** The request [_request] hands to the transport. *)
Definition request_of (method endpoint : string) (kw : kwargs) : http_request :=
  HttpRequest method (api_url self +:+ endpoint) (headers self)
              (kw_params kw) (kw_json kw).

Definition search_request (name : string) : http_request :=
  request_of "GET" "/members/search"
    (Kwargs (Some {[ "q" := PStr name; "field" := PStr "both" ]}) None).

(** The history after one more request. *)
Definition after_request (w : world) (q : http_request) : world :=
  World (issued w ++ [q]) (authority_calls w).

End Client.

(** The exception, if any, that the [try] block of [_request] runs
    into on a transport result: raised by the request, by parsing the
    body, or by merging the body of a 429 response. *)
Definition raised_in_try (r : http_result) : option py_exc :=
  match r with
  | RequestRaises e => Some e
  | Response _ (Raises e) => Some e
  | Response status (Returns data) =>
      if status =? 429 then
        match dict_unpack (error_envelope "rate_limit" rate_limit_msg) data with
        | Raises e => Some e
        | Returns _ => None
        end
      else None
  end.

(** A request of the client's that changes a rank: only
    [change_member_rank] issues a PATCH. *)
Definition is_rank_mutation (q : http_request) : Prop := req_method q = "PATCH".

(** ** The constructor and the other endpoint bindings *)

(** [os.getenv(key, default)] on an environment: the default is used
    only when the variable is not set. *)
Definition os_getenv (env : string → option string) (key dflt : string) : string :=
  default dflt (env key).

Definition ValueError (msg : string) : py_exc := PyExc "ValueError" PlainException msg.

(** [TFSystemAPI.__init__(api_url, api_key)]. *)
Definition TFSystemAPI_init (env : string → option string)
    (url key : option string) : outcome TFSystemAPI :=
  let url := str_or url (os_getenv env "TF_SYSTEM_API_URL" "http://localhost:5000/api/v1") in
  let key := str_or key (os_getenv env "TF_SYSTEM_API_KEY" "") in
  if bool_decide (key = "") then
    Raises (ValueError
      "API key must be provided or set in TF_SYSTEM_API_KEY environment variable")
  else
    Returns {| api_url := url;
               api_key := key;
               headers := {[ "Authorization" := "Bearer " +:+ key;
                             "Content-Type" := "application/json" ]} |}.

(** [if value: data[key] = value] for an optional string. *)
Definition set_if_given (key : string) (value : option string)
    (data : gmap string pyval) : gmap string pyval :=
  match value with
  | Some s => if str_truthy value then <[key := PStr s]> data else data
  | None => data
  end.

(** What an optional string argument puts in a request: nothing when
    it is [None] or empty. *)
Definition given (value : option string) : option pyval :=
  if str_truthy value then PStr <$> value else None.

(** [if limit: params['limit'] = limit]: 0 is false. *)
Definition set_if_nonzero (key : string) (value : Z)
    (data : gmap string pyval) : gmap string pyval :=
  if value =? 0 then data else <[key := PInt value]> data.

Section Bindings.

Variable py_repr : pyval → string.
Variable transport : list http_request → http_request → http_result.
Variable self : TFSystemAPI.

Definition get_status : M pyval :=
  _request transport self "GET" "/status" (Kwargs None None).

Definition verify_auth : M pyval :=
  _request transport self "POST" "/auth/verify" (Kwargs None None).

Definition get_members (search rank : option string) (limit : Z) : M pyval :=
  let params : gmap string pyval := ∅ in
  let params := set_if_given "search" search params in
  let params := set_if_given "rank" rank params in
  let params := set_if_nonzero "limit" limit params in
  _request transport self "GET" "/members" (Kwargs (Some params) None).

Definition get_member (member_id : pyval) : M pyval :=
  _request transport self "GET" ("/members/" +:+ py_str py_repr member_id)
           (Kwargs None None).

Definition add_member (discord_username : string) (roblox_username : option string)
    (current_rank : string) (discord_user_id : option string) : M pyval :=
  let data : gmap string pyval :=
    {[ "discord_username" := PStr discord_username;
       "current_rank" := PStr current_rank ]} in
  let data := set_if_given "roblox_username" roblox_username data in
  let data := set_if_given "discord_user_id" discord_user_id data in
  _request transport self "POST" "/members" (Kwargs None (Some data)).

Definition remove_member (member_id : pyval) (discord_user_id : option string)
    : M pyval :=
  let data : gmap string pyval := ∅ in
  let data := set_if_given "discord_user_id" discord_user_id data in
  _request transport self "DELETE" ("/members/" +:+ py_str py_repr member_id)
           (Kwargs None (Some data)).

Definition get_ranks : M pyval :=
  _request transport self "GET" "/ranks" (Kwargs None None).

Definition log_activity (member_id : pyval) (activity_type : string)
    (description activity_date discord_user_id : option string) : M pyval :=
  let data : gmap string pyval :=
    {[ "member_id" := member_id; "activity_type" := PStr activity_type ]} in
  let data := set_if_given "description" description data in
  let data := set_if_given "activity_date" activity_date data in
  let data := set_if_given "discord_user_id" discord_user_id data in
  _request transport self "POST" "/activity" (Kwargs None (Some data)).

Definition get_member_activities (member_id : pyval) (limit : Z) : M pyval :=
  let params : gmap string pyval := {[ "limit" := PInt limit ]} in
  _request transport self "GET"
           ("/members/" +:+ py_str py_repr member_id +:+ "/activities")
           (Kwargs (Some params) None).

End Bindings.

(** The request [change_member_rank] hands to the transport. *)
Definition rank_change_request (py_repr : pyval → string) (self : TFSystemAPI)
    (member_id : pyval) (new_rank : string) (reason discord_user_id : option string)
    : http_request :=
  request_of self "PATCH" ("/members/" +:+ py_str py_repr member_id +:+ "/rank")
    (Kwargs None
       (Some (set_if_given "discord_user_id" discord_user_id
                {[ "rank" := PStr new_rank;
                   "reason" := PStr (str_or reason "Changed via Discord Bot");
                   "promoted_by" := PStr "Discord Bot" ]}))).

(** CPython refuses to convert to a string an int of more than
    [sys.int_max_str_digits] digits, 4300 unless reconfigured: [str],
    [repr] and an f-string field raise [ValueError] on it, and so on a
    list or dict that holds one. *)
Definition int_max_str_digits : Z := 4300.

Fixpoint str_defined (v : pyval) : bool :=
  match v with
  | PInt z => Z.abs z <? 10 ^ int_max_str_digits
  | PList l => forallb str_defined l
  | PDict d => map_fold (λ _ x rest, str_defined x && rest) true d
  | _ => true
  end.

(** The default values of the bindings' parameters. *)
Definition get_members_default_limit : Z := 100.
Definition add_member_default_rank : string := "Aspirant".
Definition log_activity_default_user : option string := Some "Cortex".
Definition get_member_activities_default_limit : Z := 20.

(** ** Runs and the requests they add *)

(** Every run of [m] adds to the history only requests that satisfy
    [P]. *)
Definition adds_only {A} (P : http_request → Prop) (m : M A) : Prop :=
  ∀ (w w' : world) (o : outcome A),
    m w = (o, w') → ∃ new, issued w' = issued w ++ new ∧ Forall P new.

(** Every run of [m] adds exactly one request, which satisfies [P], and
    leaves the rest of the history as it is. *)
Definition adds_one {A} (P : http_request → Prop) (m : M A) : Prop :=
  ∀ (w w' : world) (o : outcome A),
    m w = (o, w') → ∃ q, w' = after_request w q ∧ P q.

(** [pre] is a prefix of [s]. *)
Definition str_prefix (pre s : string) : Prop := ∃ rest, s = pre +:+ rest.

(** A request that carries the client's headers, so its bearer
    credential, to a URL under the client's base URL. *)
Definition authorized (self : TFSystemAPI) (q : http_request) : Prop :=
  req_headers q = headers self ∧ str_prefix (api_url self) (req_url q).

(** ** Example runs

    A client, a small membership service and some transports, on which
    the properties below are instantiated. *)

(** [repr] on what the examples print: [None], booleans, integers and
    strings free of quotes and escapes.  No example prints a float or a
    container. *)
Definition example_repr (v : pyval) : string :=
  match v with
  | PNone => "None"
  | PBool b => if b then "True" else "False"
  | PInt z => pretty z
  | PStr s => squote s
  | _ => ""
  end.

Definition example_api : TFSystemAPI :=
  {| api_url := "http://localhost:5000/api/v1";
     api_key := "secret";
     headers := {[ "Authorization" := "Bearer secret";
                   "Content-Type" := "application/json" ]} |}.

(** The member record of alice, a Novice with id 7. *)
Definition alice : gmap string pyval :=
  {[ "id" := PInt 7;
     "discord_username" := PStr "alice";
     "current_rank" := PStr "Novice" ]}.

(** A service that knows alice: every search finds her record, every
    other request is answered with success. *)
Definition directory (_ : list http_request) (q : http_request) : http_result :=
  if bool_decide (req_method q = "GET") then
    Response 200 (Returns (PDict {[ "success" := PBool true;
                                    "matches" := PList [PDict alice] ]}))
  else Response 200 (Returns (PDict {[ "success" := PBool true ]})).

(** A service whose searches find nobody. *)
Definition empty_directory (_ : list http_request) (_ : http_request) : http_result :=
  Response 200 (Returns (PDict {[ "success" := PBool true; "matches" := PList [] ]})).

(** A service that answers 429 with a body of its own. *)
Definition throttled (_ : list http_request) (_ : http_request) : http_result :=
  Response 429 (Returns (PDict {[ "error" := PStr "too_many_requests";
                                  "retry_after" := PInt 30 ]})).

(** A gateway in front of the service answers 502 with an HTML page:
    [response.json()] raises [aiohttp.ContentTypeError], which derives
    from [aiohttp.ClientError]. *)
Definition html_gateway (_ : list http_request) (_ : http_request) : http_result :=
  Response 502
    (Raises (PyExc "ContentTypeError" ClientError
               "Attempt to decode JSON with unexpected mimetype: text/html")).



Definition fresh : world := World [] [].

(** The connection to the service is refused. *)
Definition refused (_ : list http_request) (_ : http_request) : http_result :=
  RequestRaises (PyExc "ClientConnectorError" ClientError
                   "Cannot connect to host localhost:5000").

(** A service that answers every request with a JSON array. *)
Definition listing (_ : list http_request) (_ : http_request) : http_result :=
  Response 200 (Returns (PList [])).

(** A service whose searches find a record that has a name only. *)
Definition nameless_directory (_ : list http_request) (_ : http_request)
    : http_result :=
  Response 200
    (Returns (PDict {[ "success" := PBool true;
                       "matches" := PList [PDict {[ "discord_username" := PStr "ghost" ]}]
                    ]})).

(** A service that knows alice and refuses every change with 403. *)
Definition forbidding (_ : list http_request) (q : http_request) : http_result :=
  if bool_decide (req_method q = "GET") then
    Response 200 (Returns (PDict {[ "success" := PBool true;
                                    "matches" := PList [PDict alice] ]}))
  else Response 403 (Returns (PDict {[ "success" := PBool false;
                                       "error" := PStr "forbidden" ]})).

(** An environment that sets the key only. *)
Definition example_env (name : string) : option string :=
  if bool_decide (name = "TF_SYSTEM_API_KEY") then Some "secret" else None.

(** * Properties *)

(** ** The rank table *)

(** Splits a lookup in [RANK_HIERARCHY] into its eleven entries and the
    case of a name outside the table. *)
Ltac rank_cases s :=
  unfold RANK_HIERARCHY; cbn [list_to_map foldr uncurry];
  repeat (rewrite lookup_insert; destruct (decide (_ = s)) as [<-|?]);
  try rewrite lookup_empty.

Lemma rank_lookup_position (s : string) :
  default 0 (RANK_HIERARCHY !! s) = position s.
Proof.
  unfold position, rank_order; cbn [position_from].
  rank_cases s; reflexivity.
Qed.

Lemma rank_level_range (s : string) (l : Z) :
  RANK_HIERARCHY !! s = Some l → 1 ≤ l ≤ 11.
Proof. rank_cases s; intros [= <-]; lia. Qed.

(** A level of the table determines its name. *)
Lemma rank_level_name (s : string) (l : Z) :
  RANK_HIERARCHY !! s = Some l → rank_order !! Z.to_nat (l - 1) = Some s.
Proof. rank_cases s; intros [= <-]; reflexivity. Qed.

Lemma rank_level_inj (a b : string) (l : Z) :
  RANK_HIERARCHY !! a = Some l → RANK_HIERARCHY !! b = Some l → a = b.
Proof.
  intros Ha%rank_level_name Hb%rank_level_name. rewrite Ha in Hb. by injection Hb.
Qed.

Lemma rank_level_in_order (s : string) :
  is_Some (RANK_HIERARCHY !! s) ↔ s ∈ rank_order.
Proof.
  split.
  - intros [l Hl%rank_level_name]. eapply list_elem_of_lookup_2, Hl.
  - unfold rank_order. intros Hin.
    repeat (apply elem_of_cons in Hin as [->|Hin]; [by eexists|]).
    by apply elem_of_nil in Hin.
Qed.

Lemma get_rank_level_str (s : string) :
  get_rank_level (PStr s) = Returns (position s).
Proof. cbn [get_rank_level]. by rewrite rank_lookup_position. Qed.

(** C9.  For every string [s], [get_rank_level] returns (it never
    raises) the position of [s] in the table's order, a number from 1
    to 11 when [s] is one of the eleven names and 0 when it is not.
    Distinct names have distinct levels, so the levels order the table
    totally, and 'Aspirant' is lowest at 1 and 'Chief General' highest
    at 11. *)
Theorem get_rank_level_table (s : string) :
  get_rank_level (PStr s) = Returns (position s)
  ∧ (s ∈ rank_order → 1 ≤ position s ≤ 11)
  ∧ (s ∉ rank_order → get_rank_level (PStr s) = Returns 0)
  ∧ length rank_order = 11%nat
  ∧ NoDup rank_order
  ∧ (∀ a b : string, a ∈ rank_order → b ∈ rank_order →
       get_rank_level (PStr a) = get_rank_level (PStr b) → a = b)
  ∧ (∀ n : Z, 1 ≤ n ≤ 11 →
       ∃ a : string, a ∈ rank_order ∧ get_rank_level (PStr a) = Returns n)
  ∧ get_rank_level (PStr "Aspirant") = Returns 1
  ∧ get_rank_level (PStr "Chief General") = Returns 11.
Proof.
  split; [apply get_rank_level_str|].
  split.
  { intros Hin. apply rank_level_in_order in Hin as [l Hl].
    rewrite <- rank_lookup_position, Hl. eapply rank_level_range, Hl. }
  split.
  { intros Hnot. cbn [get_rank_level].
    destruct (RANK_HIERARCHY !! s) as [l|] eqn:Hl; [|reflexivity].
    destruct Hnot. apply rank_level_in_order. by eexists. }
  split; [reflexivity|].
  split; [apply (bool_decide_unpack _); vm_compute; exact I|].
  split.
  { intros a b Ha Hb Heq.
    apply rank_level_in_order in Ha as [la Hla].
    apply rank_level_in_order in Hb as [lb Hlb].
    cbn [get_rank_level] in Heq. rewrite Hla, Hlb in Heq.
    injection Heq as ->. eapply rank_level_inj; eauto. }
  split.
  { intros n Hn.
    assert (n = 1 ∨ n = 2 ∨ n = 3 ∨ n = 4 ∨ n = 5 ∨ n = 6 ∨ n = 7 ∨ n = 8
            ∨ n = 9 ∨ n = 10 ∨ n = 11) as Hcases by lia.
    exists (default "" (rank_order !! Z.to_nat (n - 1))).
    repeat (destruct Hcases as [->|Hcases];
            [split; [apply (bool_decide_unpack _)|]; vm_compute; done|]).
    subst n. split; [apply (bool_decide_unpack _)|]; vm_compute; done. }
  split; vm_compute; reflexivity.
Qed.

(** ** The permission decision *)

Lemma str_app_assoc (a b c : string) : (a +:+ b) +:+ c = a +:+ b +:+ c.
Proof.
  induction a as [|x a IH]; [reflexivity|].
  change (String x ((a +:+ b) +:+ c) = String x (a +:+ b +:+ c)). by rewrite IH.
Qed.

Lemma str_app_nil_r (a : string) : a +:+ "" = a.
Proof.
  induction a as [|x a IH]; [reflexivity|].
  change (String x (a +:+ "") = String x a). by rewrite IH.
Qed.

Lemma occurs_in_suffix (pre s : string) : occurs_in s (pre +:+ s).
Proof. exists pre, "". by rewrite str_app_nil_r. Qed.

Section AuthorityFacts.

Variable py_repr : pyval → string.

(** Without a self-modification hit, two string ranks are decided by
    their levels alone. *)
Lemma can_modify_rank_levels (a b : string) (tid uid : option Z) :
  id_truthy tid && id_truthy uid && id_eqb tid uid = false →
  can_modify_rank py_repr (PStr a) (PStr b) tid uid =
    Returns
      (if position a =? 0 then (false, "Unknown user rank: " +:+ a)
       else if position b =? 0 then (false, "Unknown target rank: " +:+ b)
       else if position a <=? position b
            then (false, not_higher_msg py_repr (PStr a) (PStr b))
            else (true, "Permission granted")).
Proof.
  intros Hself. unfold can_modify_rank. rewrite Hself.
  rewrite !get_rank_level_str. unfold mbind, outcome_bind.
  destruct (position a =? 0); [reflexivity|].
  destruct (position b =? 0); [reflexivity|].
  by destruct (position a <=? position b).
Qed.

Lemma not_higher_msg_names (a b : string) :
  occurs_in a (not_higher_msg py_repr (PStr a) (PStr b))
  ∧ occurs_in b (not_higher_msg py_repr (PStr a) (PStr b)).
Proof.
  split.
  - exists ("You don't have permission to change this member's rank. "
            +:+ "The target is a **" +:+ b +:+ "** and you are a **"),
           ("**. " +:+ "You can only change ranks of members below your level.").
    unfold not_higher_msg; cbn [py_str].
    by rewrite !str_app_assoc.
  - exists ("You don't have permission to change this member's rank. "
            +:+ "The target is a **"),
           ("** and you are a **" +:+ a +:+ "**. "
            +:+ "You can only change ranks of members below your level.").
    reflexivity.
Qed.

(** C2.  For two names [a] and [b] of the table and no member ids,
    [can_modify_rank a b] allows exactly when the level of [a] is
    strictly above the level of [b]; at equal levels (so also for
    [a = b]) it denies, and its reason contains both names. *)
Theorem can_modify_rank_strictly_higher (a b : string) (la lb : Z) :
  RANK_HIERARCHY !! a = Some la →
  RANK_HIERARCHY !! b = Some lb →
  get_rank_level (PStr a) = Returns la
  ∧ get_rank_level (PStr b) = Returns lb
  ∧ ∃ (allowed : bool) (reason : string),
      can_modify_rank py_repr (PStr a) (PStr b) None None = Returns (allowed, reason)
      ∧ (allowed = true ↔ lb < la)
      ∧ (la = lb → allowed = false ∧ occurs_in a reason ∧ occurs_in b reason)
      ∧ (a = b → allowed = false).
Proof.
  intros Ha Hb.
  assert (position a = la) as Hpa by (by rewrite <- rank_lookup_position, Ha).
  assert (position b = lb) as Hpb by (by rewrite <- rank_lookup_position, Hb).
  pose proof (rank_level_range _ _ Ha) as Hra.
  pose proof (rank_level_range _ _ Hb) as Hrb.
  split; [by rewrite get_rank_level_str, Hpa|].
  split; [by rewrite get_rank_level_str, Hpb|].
  rewrite can_modify_rank_levels by reflexivity. rewrite Hpa, Hpb.
  destruct (Z.eqb_spec la 0) as [->|_]; [lia|].
  destruct (Z.eqb_spec lb 0) as [->|_]; [lia|].
  destruct (Z.leb_spec la lb) as [Hle|Hlt].
  - eexists _, _; split; [reflexivity|].
    split; [split; [discriminate|lia]|].
    split; [intros _; split; [reflexivity|apply not_higher_msg_names]|done].
  - eexists _, _; split; [reflexivity|].
    split; [split; [lia|reflexivity]|].
    split; [lia|]. intros ->. rewrite Ha in Hb. injection Hb as ->. lia.
Qed.

(** C3, where the code departs from it.  With both ids supplied and
    equal to 0 the test [target_member_id and user_member_id and ...]
    is false, the self-modification check is passed over and the
    levels decide: a Marshal is allowed to change the Novice that has
    its own id. *)
Theorem can_modify_rank_same_id_zero :
  can_modify_rank py_repr (PStr "Marshal") (PStr "Novice") (Some 0) (Some 0)
  = Returns (true, "Permission granted").
Proof. vm_compute. reflexivity. Qed.

(** With both ids supplied, equal and not 0, the decision is the
    self-modification denial whatever the two ranks are: the ranks
    are not looked at. *)
Lemma can_modify_rank_same_id_nonzero (user_rank target_rank : pyval) (id : Z) :
  id ≠ 0 →
  can_modify_rank py_repr user_rank target_rank (Some id) (Some id)
  = Returns (false, "You cannot change your own rank.").
Proof.
  intros Hid. unfold can_modify_rank, id_truthy, id_eqb.
  rewrite Z.eqb_refl. destruct (Z.eqb_spec id 0); [done|reflexivity].
Qed.

(** C5.  When the ids are absent or unequal: a user rank outside the
    table is denied with the message naming that rank, whatever the
    target rank is; a user rank of the table and a target rank
    outside it is denied with the message naming the target rank. *)
Theorem can_modify_rank_unknown_rank (user_rank target_rank : string)
    (target_member_id user_member_id : option Z) :
  target_member_id = None ∨ user_member_id = None
    ∨ target_member_id ≠ user_member_id →
  (RANK_HIERARCHY !! user_rank = None →
     get_rank_level (PStr user_rank) = Returns 0
     ∧ can_modify_rank py_repr (PStr user_rank) (PStr target_rank)
         target_member_id user_member_id
       = Returns (false, "Unknown user rank: " +:+ user_rank)
     ∧ occurs_in user_rank ("Unknown user rank: " +:+ user_rank))
  ∧ (is_Some (RANK_HIERARCHY !! user_rank) →
     RANK_HIERARCHY !! target_rank = None →
     get_rank_level (PStr target_rank) = Returns 0
     ∧ can_modify_rank py_repr (PStr user_rank) (PStr target_rank)
         target_member_id user_member_id
       = Returns (false, "Unknown target rank: " +:+ target_rank)
     ∧ occurs_in target_rank ("Unknown target rank: " +:+ target_rank)).
Proof.
  intros Hids.
  assert (id_truthy target_member_id && id_truthy user_member_id
          && id_eqb target_member_id user_member_id = false) as Hself.
  { destruct target_member_id as [t|], user_member_id as [u|]; cbn;
      try (by rewrite ?andb_false_r).
    destruct (Z.eqb_spec t u) as [->|]; [|by rewrite andb_false_r].
    by destruct Hids as [?|[?|?]]. }
  split.
  - intros Hu.
    assert (position user_rank = 0) as Hp by (by rewrite <- rank_lookup_position, Hu).
    split; [by rewrite get_rank_level_str, Hp|].
    split; [by rewrite can_modify_rank_levels, Hp|].
    apply occurs_in_suffix.
  - intros [l Hu] Ht.
    assert (position user_rank = l) as Hp by (by rewrite <- rank_lookup_position, Hu).
    assert (position target_rank = 0) as Hq
      by (by rewrite <- rank_lookup_position, Ht).
    pose proof (rank_level_range _ _ Hu) as Hr.
    split; [by rewrite get_rank_level_str, Hq|].
    split.
    + rewrite can_modify_rank_levels, Hp, Hq by done.
      destruct (Z.eqb_spec l 0); [lia|reflexivity].
    + apply occurs_in_suffix.
Qed.

End AuthorityFacts.

(** ** The request primitive *)

Section ClientFacts.

Variable py_repr : pyval → string.
Variable transport : list http_request → http_request → http_result.
Variable self : TFSystemAPI.

(** Every run of [_request] hands exactly one request to the
    transport, and makes no call to the authority. *)
Lemma _request_world (method endpoint : string) (kw : kwargs) (w w' : world)
    (o : outcome pyval) :
  _request transport self method endpoint kw w = (o, w') →
  w' = after_request w (request_of self method endpoint kw).
Proof.
  unfold _request, try_except, mbind, M_bind, session_request.
  fold (request_of self method endpoint kw).
  destruct (transport (issued w) (request_of self method endpoint kw))
    as [e|status [data|e]]; cbn.
  - destruct (exc_base_of e); cbn; by intros [= _ <-].
  - destruct (status =? 429); cbn; [|by intros [= _ <-]].
    destruct data; cbn; by intros [= _ <-].
  - destruct (exc_base_of e); cbn; by intros [= _ <-].
Qed.

Lemma _request_response (method endpoint : string) (kw : kwargs) (w : world)
    (status : Z) (data : pyval) :
  transport (issued w) (request_of self method endpoint kw)
    = Response status (Returns data) →
  status ≠ 429 →
  _request transport self method endpoint kw w
    = (Returns data, after_request w (request_of self method endpoint kw)).
Proof.
  intros Ht Hs.
  unfold _request, try_except, mbind, M_bind, session_request.
  fold (request_of self method endpoint kw). rewrite Ht. cbn.
  by destruct (Z.eqb_spec status 429).
Qed.

(** What [_request] does with an exception met in its [try] block. *)
Lemma _request_raised (method endpoint : string) (kw : kwargs) (w : world)
    (e : py_exc) :
  raised_in_try (transport (issued w) (request_of self method endpoint kw)) = Some e →
  _request transport self method endpoint kw w
    = (match exc_base_of e with
       | ClientError =>
           Returns (PDict (error_envelope "connection_error"
                             ("Failed to connect to TF System: " +:+ exc_str e)))
       | PlainException =>
           Returns (PDict (error_envelope "unknown_error"
                             ("Unexpected error: " +:+ exc_str e)))
       | BaseExceptionOnly => Raises e
       end,
       after_request w (request_of self method endpoint kw)).
Proof.
  unfold _request, try_except, mbind, M_bind, session_request, raised_in_try.
  fold (request_of self method endpoint kw).
  destruct (transport (issued w) (request_of self method endpoint kw))
    as [e'|status [data|e']]; cbn.
  - intros [= ->]. by destruct (exc_base_of e).
  - destruct (status =? 429); [|done].
    destruct data; cbn; intros [= <-]; reflexivity.
  - intros [= ->]. by destruct (exc_base_of e).
Qed.

Lemma _request_not_raised (method endpoint : string) (kw : kwargs) (w : world) :
  raised_in_try (transport (issued w) (request_of self method endpoint kw)) = None →
  ∃ v, _request transport self method endpoint kw w
       = (Returns v, after_request w (request_of self method endpoint kw)).
Proof.
  unfold _request, try_except, mbind, M_bind, session_request, raised_in_try.
  fold (request_of self method endpoint kw).
  destruct (transport (issued w) (request_of self method endpoint kw))
    as [e'|status [data|e']]; cbn; try done.
  destruct (status =? 429); [|by eexists].
  destruct data; cbn; try done. by eexists.
Qed.

End ClientFacts.

Section RequestClaims.

Variable py_repr : pyval → string.
Variable transport : list http_request → http_request → http_result.
Variable self : TFSystemAPI.

(** C7, as the code has it.  On a response with status 429 whose
    parsed body is a JSON object, [_request] returns the body's
    fields laid over the three fixed ones: every field of the body is
    in the envelope with the body's value, and [success], [error] and
    [message] have the fixed rate-limit values when the body has no
    field of that name. *)
Theorem request_rate_limit_merge (method endpoint : string) (kw : kwargs)
    (w : world) (body : gmap string pyval) :
  transport (issued w) (request_of self method endpoint kw)
    = Response 429 (Returns (PDict body)) →
  ∃ env : gmap string pyval,
    _request transport self method endpoint kw w
      = (Returns (PDict env), after_request w (request_of self method endpoint kw))
    ∧ env = body ∪ error_envelope "rate_limit" rate_limit_msg
    ∧ (∀ k v, body !! k = Some v → env !! k = Some v)
    ∧ (body !! "success" = None → env !! "success" = Some (PBool false))
    ∧ (body !! "error" = None → env !! "error" = Some (PStr "rate_limit"))
    ∧ (body !! "message" = None → env !! "message" = Some (PStr rate_limit_msg))
    ∧ (∀ k, is_Some (env !! k) →
         is_Some (body !! k) ∨ k = "success" ∨ k = "error" ∨ k = "message").
Proof.
  intros Ht. exists (body ∪ error_envelope "rate_limit" rate_limit_msg).
  split.
  { unfold _request, try_except, mbind, M_bind, session_request.
    fold (request_of self method endpoint kw). by rewrite Ht. }
  split; [reflexivity|].
  split; [intros k v Hk; by apply lookup_union_Some_l|].
  split; [intros Hk; by rewrite lookup_union_r|].
  split; [intros Hk; by rewrite lookup_union_r|].
  split; [intros Hk; by rewrite lookup_union_r|].
  intros k [v Hk]. apply lookup_union_Some_raw in Hk as [Hk|[_ Hk]]; [by left; eexists|].
  right. unfold error_envelope in Hk.
  rewrite !lookup_insert, lookup_singleton in Hk.
  repeat case_decide; subst; by auto.
Qed.

(** A 429 response whose parsed body is not a JSON object cannot be
    merged: the [TypeError] of the dict display is caught as any
    other exception. *)
Lemma request_rate_limit_not_object (method endpoint : string) (kw : kwargs)
    (w : world) (body : pyval) :
  transport (issued w) (request_of self method endpoint kw)
    = Response 429 (Returns body) →
  (∀ d, body ≠ PDict d) →
  _request transport self method endpoint kw w
    = (Returns (PDict (error_envelope "unknown_error"
                 ("Unexpected error: " +:+ squote (py_type_name body)
                  +:+ " object is not a mapping"))),
       after_request w (request_of self method endpoint kw)).
Proof.
  intros Ht Hbody.
  rewrite (_request_raised _ _ _ _ _ _
             (TypeError (squote (py_type_name body) +:+ " object is not a mapping"))).
  - reflexivity.
  - rewrite Ht. cbn. destruct body; try reflexivity. by destruct (Hbody d).
Qed.

(** C8, as the code has it.  Whatever the HTTP call does (it answers,
    or the request or the parsing of the body raises an [Exception]),
    [_request] raises nothing and returns a value.  Which envelope a
    failure gets depends on the class of the exception, not on the
    step that failed: an [aiohttp.ClientError] gives 'connection_error',
    also when it is raised by parsing the body, and any other
    [Exception] gives 'unknown_error'; the message of either envelope
    ends in [str(e)]. *)
Theorem request_returns_envelope (method endpoint : string) (kw : kwargs)
    (w : world) :
  let q := request_of self method endpoint kw in
  let r := transport (issued w) q in
  (∀ e, raised_in_try r = Some e → exc_base_of e ≠ BaseExceptionOnly) →
  ∃ v : pyval,
    _request transport self method endpoint kw w = (Returns v, after_request w q)
    ∧ (∀ e, r = RequestRaises e → raised_in_try r = Some e)
    ∧ (∀ status e, r = Response status (Raises e) → raised_in_try r = Some e)
    ∧ (∀ e, raised_in_try r = Some e →
         ∃ error msg,
           v = PDict (error_envelope error msg)
           ∧ error = match exc_base_of e with
                     | ClientError => "connection_error"
                     | _ => "unknown_error"
                     end
           ∧ msg = match exc_base_of e with
                   | ClientError => "Failed to connect to TF System: " +:+ exc_str e
                   | _ => "Unexpected error: " +:+ exc_str e
                   end
           ∧ occurs_in (exc_str e) msg).
Proof.
  intros q r Hexc. subst q r.
  assert (∀ e, transport (issued w) (request_of self method endpoint kw)
               = RequestRaises e →
               raised_in_try (transport (issued w)
                                (request_of self method endpoint kw)) = Some e)
    as Hissue by (by intros e ->).
  assert (∀ status e, transport (issued w) (request_of self method endpoint kw)
                      = Response status (Raises e) →
                      raised_in_try (transport (issued w)
                                       (request_of self method endpoint kw)) = Some e)
    as Hparse by (by intros status e ->).
  destruct (raised_in_try (transport (issued w)
                             (request_of self method endpoint kw)))
    as [e|] eqn:Hr.
  - pose proof (_request_raised _ _ _ _ _ _ _ Hr) as Hrun.
    pose proof (Hexc e eq_refl) as Hbase.
    destruct (exc_base_of e) eqn:Hb; [| |done];
      (eexists; split; [exact Hrun|]; split; [exact Hissue|];
       split; [exact Hparse|]; intros e' [= <-]; rewrite Hb;
       eexists _, _; split; [reflexivity|]; split; [reflexivity|];
       split; [reflexivity|apply occurs_in_suffix]).
  - destruct (_request_not_raised _ _ _ _ _ _ Hr) as [v Hrun].
    exists v. split; [exact Hrun|]. split; [exact Hissue|].
    split; [exact Hparse|]. discriminate.
Qed.

(** X21.  The full case analysis of [_request], the exceptions outside
    [Exception] included: when the [try] block meets no exception it returns a
    value; an [aiohttp.ClientError] gives the [connection_error]
    envelope and any other [Exception] the [unknown_error] envelope,
    each with a message that ends in [str(e)]; an exception that does
    not derive from [Exception] is not caught and reaches the
    caller. *)
Theorem request_exception_handling (method endpoint : string) (kw : kwargs)
    (w : world) :
  let q := request_of self method endpoint kw in
  let run := _request transport self method endpoint kw w in
  match raised_in_try (transport (issued w) q) with
  | None => ∃ v, run = (Returns v, after_request w q)
  | Some e =>
      match exc_base_of e with
      | ClientError =>
          ∃ msg,
            run = (Returns (PDict (error_envelope "connection_error" msg)),
                   after_request w q)
            ∧ msg = "Failed to connect to TF System: " +:+ exc_str e
            ∧ occurs_in (exc_str e) msg
      | PlainException =>
          ∃ msg,
            run = (Returns (PDict (error_envelope "unknown_error" msg)),
                   after_request w q)
            ∧ msg = "Unexpected error: " +:+ exc_str e
            ∧ occurs_in (exc_str e) msg
      | BaseExceptionOnly => run = (Raises e, after_request w q)
      end
  end.
Proof.
  intros q run. subst q run.
  destruct (raised_in_try _) as [e|] eqn:Hr.
  - pose proof (_request_raised _ _ _ _ _ _ _ Hr) as Hrun.
    destruct (exc_base_of e); [| |exact Hrun];
      (eexists; split; [exact Hrun|split; [reflexivity|apply occurs_in_suffix]]).
  - by apply _request_not_raised.
Qed.

End RequestClaims.

(** ** The convenience operations *)

Section ConvenienceFacts.

Variable py_repr : pyval → string.
Variable transport : list http_request → http_request → http_result.
Variable self : TFSystemAPI.

Lemma first_match_dict (d : gmap string pyval) :
  (∀ v, d !! "matches" = Some v → py_truthy v = true → ∃ l, v = PList l) →
  first_match py_repr (PDict d)
    = Returns (if success_of d then
                 match matches_of d with
                 | m :: _ => m
                 | [] => PNone
                 end
               else PNone).
Proof.
  intros Hlist. unfold first_match, success_of, matches_of.
  cbn [py_get mbind outcome_bind].
  destruct (py_truthy (default PNone (d !! "success"))); [|reflexivity].
  destruct (d !! "matches") as [v|] eqn:Hm; cbn [default from_option id];
    [|reflexivity].
  destruct (py_truthy v) eqn:Hv.
  - destruct (Hlist v eq_refl Hv) as [l ->].
    cbn [py_getitem]. rewrite Hm. destruct l as [|m rest]; [discriminate Hv|].
    reflexivity.
  - destruct v as [| | | | |l|]; try reflexivity. by destruct l.
Qed.

(** [find_member_by_name] issues the search request and nothing
    else, whatever comes back. *)
Lemma find_member_by_name_world (name : string) (w w' : world) (o : outcome pyval) :
  find_member_by_name py_repr transport self name w = (o, w') →
  w' = after_request w (search_request self name).
Proof.
  unfold find_member_by_name, search_member, mbind, M_bind, lift.
  destruct (_request _ _ _ _ _ w) as [[result|e] w1] eqn:Hreq;
    apply _request_world in Hreq; by intros [= _ <-].
Qed.


End ConvenienceFacts.

Section ChangeRankFacts.

Variable py_repr : pyval → string.
Variable transport : list http_request → http_request → http_result.
Variable self : TFSystemAPI.

(** Every call of [change_member_rank] issues a PATCH request. *)
Lemma change_member_rank_issues_patch (member_id : pyval) (new_rank : string)
    (reason discord_user_id : option string) (w w' : world) (o : outcome pyval) :
  change_member_rank py_repr transport self member_id new_rank reason
    discord_user_id w = (o, w') →
  ∃ q, issued w' = issued w ++ [q] ∧ is_rank_mutation q.
Proof.
  unfold change_member_rank. intros Hrun. apply _request_world in Hrun as ->.
  eexists; split; reflexivity.
Qed.

Lemma search_request_not_mutation (name : string) :
  ¬ is_rank_mutation (search_request self name).
Proof. unfold is_rank_mutation. cbn. discriminate. Qed.

(** The run of [change_rank_by_name] when the search resolves no
    member. *)
Lemma change_rank_by_name_none (member_name new_rank : string)
    (reason discord_user_id user_rank : option string) (w w1 : world) (member : pyval) :
  find_member_by_name py_repr transport self member_name w = (Returns member, w1) →
  py_truthy member = false →
  change_rank_by_name py_repr transport self member_name new_rank reason
    discord_user_id user_rank w
  = (Returns (PDict (error_envelope "member_not_found"
                       (member_not_found_msg member_name))), w1).
Proof.
  intros Hfind Hfalsy. unfold change_rank_by_name, mbind at 1, M_bind.
  by rewrite Hfind, Hfalsy.
Qed.

(** The run of [change_rank_by_name] when a rank is supplied and
    [can_modify_rank] denies. *)
Lemma change_rank_by_name_denied (member_name new_rank rank : string)
    (reason discord_user_id : option string) (w w1 : world)
    (member target_rank : pyval) (reason_msg : string) :
  find_member_by_name py_repr transport self member_name w = (Returns member, w1) →
  py_truthy member = true →
  rank ≠ "" →
  py_getitem py_repr member (PStr "current_rank") = Returns target_rank →
  can_modify_rank py_repr (PStr rank) target_rank None None
    = Returns (false, reason_msg) →
  change_rank_by_name py_repr transport self member_name new_rank reason
    discord_user_id (Some rank) w
  = (Returns (PDict (error_envelope "permission_denied" reason_msg)),
     World (issued w1) (authority_calls w1 ++ [(PStr rank, target_rank)])).
Proof.
  intros Hfind Htruthy Hrank Hcur Hdeny.
  unfold change_rank_by_name, mbind at 1, M_bind. rewrite Hfind, Htruthy.
  cbn [negb str_truthy]. rewrite bool_decide_eq_false_2 by done. cbn [negb].
  unfold mbind, M_bind, lift, call_can_modify_rank. by rewrite Hcur, Hdeny.
Qed.

(** A rank is never allowed to modify itself: the levels are equal,
    or the rank is outside the table. *)
Lemma can_modify_rank_same_rank (rank : string) :
  ∃ reason_msg,
    can_modify_rank py_repr (PStr rank) (PStr rank) None None
    = Returns (false, reason_msg).
Proof.
  rewrite can_modify_rank_levels by reflexivity.
  destruct (position rank =? 0); [by eexists|].
  rewrite Z.leb_refl. by eexists.
Qed.

(** The requests a denied or unresolved call has issued: the search,
    and no rank mutation. *)
Lemma only_search_issued (member_name : string) (w w1 : world) (o : outcome pyval) :
  find_member_by_name py_repr transport self member_name w = (o, w1) →
  issued w1 = issued w ++ [search_request self member_name]
  ∧ authority_calls w1 = authority_calls w
  ∧ Forall (λ q, ¬ is_rank_mutation q) [search_request self member_name].
Proof.
  intros Hfind. apply find_member_by_name_world in Hfind as ->.
  split; [reflexivity|]. split; [reflexivity|].
  constructor; [apply search_request_not_mutation|constructor].
Qed.

(** C6.  When [find_member_by_name] resolves no member,
    [change_rank_by_name] returns the envelope with [success] false,
    [error] 'member_not_found' and a message that contains the
    searched name; the search is the only request it has issued, so
    no rank mutation, and it has not called [can_modify_rank]. *)
Theorem change_rank_by_name_member_not_found (member_name new_rank : string)
    (reason discord_user_id user_rank : option string) (w w' : world) :
  find_member_by_name py_repr transport self member_name w = (Returns PNone, w') →
  ∃ (env : gmap string pyval) (message : string),
    change_rank_by_name py_repr transport self member_name new_rank reason
      discord_user_id user_rank w = (Returns (PDict env), w')
    ∧ env !! "success" = Some (PBool false)
    ∧ env !! "error" = Some (PStr "member_not_found")
    ∧ env !! "message" = Some (PStr message)
    ∧ occurs_in member_name message
    ∧ issued w' = issued w ++ [search_request self member_name]
    ∧ Forall (λ q, ¬ is_rank_mutation q) [search_request self member_name]
    ∧ authority_calls w' = authority_calls w.
Proof.
  intros Hfind.
  exists (error_envelope "member_not_found" (member_not_found_msg member_name)),
         (member_not_found_msg member_name).
  split; [eapply change_rank_by_name_none; [exact Hfind|reflexivity]|].
  do 3 (split; [reflexivity|]).
  split.
  { exists ("Could not find member with name " +:+ dquote), dquote.
    unfold member_not_found_msg. by rewrite !str_app_assoc. }
  destruct (only_search_issued _ _ _ _ Hfind) as (? & ? & ?). done.
Qed.

(** C1, as the code has it.  When [find_member_by_name] resolves a
    target, a rank that is not the empty string is supplied and
    [can_modify_rank] denies it on the target's current rank,
    [change_rank_by_name] returns the envelope with [success] false,
    [error] 'permission_denied' and, as message, the reason of
    [can_modify_rank]; the search is the only request it has issued,
    so no rank mutation. *)
Theorem change_rank_by_name_permission_denied (member_name new_rank rank : string)
    (reason discord_user_id : option string) (w w1 : world)
    (member target_rank : pyval) (reason_msg : string) :
  find_member_by_name py_repr transport self member_name w = (Returns member, w1) →
  py_truthy member = true →
  rank ≠ "" →
  py_getitem py_repr member (PStr "current_rank") = Returns target_rank →
  can_modify_rank py_repr (PStr rank) target_rank None None
    = Returns (false, reason_msg) →
  ∃ (env : gmap string pyval) (w' : world),
    change_rank_by_name py_repr transport self member_name new_rank reason
      discord_user_id (Some rank) w = (Returns (PDict env), w')
    ∧ env !! "success" = Some (PBool false)
    ∧ env !! "error" = Some (PStr "permission_denied")
    ∧ env !! "message" = Some (PStr reason_msg)
    ∧ issued w' = issued w ++ [search_request self member_name]
    ∧ Forall (λ q, ¬ is_rank_mutation q) [search_request self member_name].
Proof.
  intros Hfind Htruthy Hrank Hcur Hdeny.
  eexists _, _. split; [by eapply change_rank_by_name_denied|].
  do 3 (split; [reflexivity|]).
  destruct (only_search_issued _ _ _ _ Hfind) as (? & ? & ?). done.
Qed.

(** X20.  [change_rank_by_name] is given no
    identity to compare and passes no ids to [can_modify_rank].  What
    it does guarantee: when a rank that is not the empty string is
    supplied and the resolved target has that same current rank, as
    an actor who is the target has, the result is the
    'permission_denied' envelope and the search is the only request
    issued, so no rank mutation. *)
Theorem change_rank_by_name_own_rank (member_name new_rank rank : string)
    (reason discord_user_id : option string) (w w1 : world) (member : pyval) :
  find_member_by_name py_repr transport self member_name w = (Returns member, w1) →
  py_truthy member = true →
  rank ≠ "" →
  py_getitem py_repr member (PStr "current_rank") = Returns (PStr rank) →
  ∃ (reason_msg : string) (w' : world),
    change_rank_by_name py_repr transport self member_name new_rank reason
      discord_user_id (Some rank) w
    = (Returns (PDict (error_envelope "permission_denied" reason_msg)), w')
    ∧ issued w' = issued w ++ [search_request self member_name]
    ∧ Forall (λ q, ¬ is_rank_mutation q) [search_request self member_name].
Proof.
  intros Hfind Htruthy Hrank Hcur.
  destruct (can_modify_rank_same_rank rank) as [reason_msg Hdeny].
  eexists _, _. split; [by eapply change_rank_by_name_denied|].
  destruct (only_search_issued _ _ _ _ Hfind) as (? & ? & ?). done.
Qed.

End ChangeRankFacts.

(** ** The properties on the example runs *)

(** 'Marshal' is in the table, at a level between 1 and 11. *)
Lemma get_rank_level_table_witness :
  "Marshal" ∈ rank_order ∧ 1 ≤ position "Marshal" ≤ 11.
Proof.
  assert ("Marshal" ∈ rank_order) as Hin
    by (apply (bool_decide_unpack _); vm_compute; exact I).
  split; [exact Hin|].
  exact (proj1 (proj2 (get_rank_level_table "Marshal")) Hin).
Defined.

(** A Marshal (9) may change a Novice (2). *)
Lemma can_modify_rank_strictly_higher_witness :
  RANK_HIERARCHY !! "Marshal" = Some 9
  ∧ RANK_HIERARCHY !! "Novice" = Some 2
  ∧ ∃ (allowed : bool) (reason : string),
      can_modify_rank example_repr (PStr "Marshal") (PStr "Novice") None None
        = Returns (allowed, reason)
      ∧ (allowed = true ↔ 2 < 9).
Proof.
  assert (RANK_HIERARCHY !! "Marshal" = Some 9) as Ha by (vm_compute; reflexivity).
  assert (RANK_HIERARCHY !! "Novice" = Some 2) as Hb by (vm_compute; reflexivity).
  split; [exact Ha|]. split; [exact Hb|].
  destruct (can_modify_rank_strictly_higher example_repr "Marshal" "Novice" 9 2 Ha Hb)
    as (_ & _ & allowed & reason & Hrun & Hiff & _).
  exists allowed, reason. split; [exact Hrun|exact Hiff].
Defined.

(** 'Recruit' is not a rank of the table: it is denied by name. *)
Lemma can_modify_rank_unknown_rank_witness :
  RANK_HIERARCHY !! "Recruit" = None
  ∧ can_modify_rank example_repr (PStr "Recruit") (PStr "Novice") None (Some 3)
    = Returns (false, "Unknown user rank: Recruit").
Proof.
  assert (RANK_HIERARCHY !! "Recruit" = None) as Hu by (vm_compute; reflexivity).
  split; [exact Hu|].
  exact (proj1 (proj2 (proj1 (can_modify_rank_unknown_rank example_repr
                                "Recruit" "Novice" None (Some 3)
                                (or_introl eq_refl)) Hu))).
Defined.

(** The throttled service: the body's [retry_after] is in the envelope,
    [success] and [message] keep their fixed values. *)
Lemma request_rate_limit_merge_witness :
  throttled (issued fresh) (request_of example_api "GET" "/status" (Kwargs None None))
    = Response 429 (Returns (PDict {[ "error" := PStr "too_many_requests";
                                      "retry_after" := PInt 30 ]}))
  ∧ ∃ env : gmap string pyval,
      _request throttled example_api "GET" "/status" (Kwargs None None) fresh
        = (Returns (PDict env),
           after_request fresh (request_of example_api "GET" "/status" (Kwargs None None)))
      ∧ env !! "retry_after" = Some (PInt 30)
      ∧ env !! "success" = Some (PBool false)
      ∧ env !! "message" = Some (PStr rate_limit_msg).
Proof.
  split; [reflexivity|].
  destruct (request_rate_limit_merge throttled example_api "GET" "/status"
              (Kwargs None None) fresh
              {[ "error" := PStr "too_many_requests"; "retry_after" := PInt 30 ]}
              eq_refl)
    as (env & Hrun & _ & Hbody & Hsuccess & _ & Hmessage & _).
  exists env. split; [exact Hrun|].
  split; [apply Hbody; vm_compute; reflexivity|].
  split; [apply Hsuccess; vm_compute; reflexivity|].
  apply Hmessage; vm_compute; reflexivity.
Defined.


(** Nobody is called bob: the envelope says so and only the search was
    issued. *)
Lemma change_rank_by_name_member_not_found_witness :
  find_member_by_name example_repr empty_directory example_api "bob" fresh
    = (Returns PNone, after_request fresh (search_request example_api "bob"))
  ∧ ∃ (env : gmap string pyval) (message : string),
      change_rank_by_name example_repr empty_directory example_api "bob" "Adept"
        None (Some "42") (Some "Marshal") fresh
        = (Returns (PDict env),
           after_request fresh (search_request example_api "bob"))
      ∧ env !! "error" = Some (PStr "member_not_found")
      ∧ env !! "message" = Some (PStr message)
      ∧ occurs_in "bob" message.
Proof.
  assert (find_member_by_name example_repr empty_directory example_api "bob" fresh
          = (Returns PNone, after_request fresh (search_request example_api "bob")))
    as Hfind by (vm_compute; reflexivity).
  split; [exact Hfind|].
  destruct (change_rank_by_name_member_not_found example_repr empty_directory
              example_api "bob" "Adept" None (Some "42") (Some "Marshal")
              fresh _ Hfind)
    as (env & message & Hrun & _ & Herror & Hmessage & Hname & _).
  exists env, message.
  split; [exact Hrun|]. split; [exact Herror|]. split; [exact Hmessage|].
  exact Hname.
Defined.

(** An Aspirant asks for a change of alice, a Novice. *)
Lemma change_rank_by_name_permission_denied_witness :
  can_modify_rank example_repr (PStr "Aspirant") (PStr "Novice") None None
    = Returns (false, not_higher_msg example_repr (PStr "Aspirant") (PStr "Novice"))
  ∧ ∃ (env : gmap string pyval) (w' : world),
      change_rank_by_name example_repr directory example_api "alice" "Adept"
        None (Some "42") (Some "Aspirant") fresh = (Returns (PDict env), w')
      ∧ env !! "error" = Some (PStr "permission_denied")
      ∧ env !! "message"
        = Some (PStr (not_higher_msg example_repr (PStr "Aspirant") (PStr "Novice")))
      ∧ issued w' = [search_request example_api "alice"].
Proof.
  assert (can_modify_rank example_repr (PStr "Aspirant") (PStr "Novice") None None
          = Returns (false,
                     not_higher_msg example_repr (PStr "Aspirant") (PStr "Novice")))
    as Hdeny by (vm_compute; reflexivity).
  split; [exact Hdeny|].
  assert (find_member_by_name example_repr directory example_api "alice" fresh
          = (Returns (PDict alice),
             after_request fresh (search_request example_api "alice")))
    as Hfind by (vm_compute; reflexivity).
  assert (py_getitem example_repr (PDict alice) (PStr "current_rank")
          = Returns (PStr "Novice")) as Hcur by (vm_compute; reflexivity).
  assert ("Aspirant" ≠ "") as Hrank by discriminate.
  assert (py_truthy (PDict alice) = true) as Htruthy by (vm_compute; reflexivity).
  destruct (change_rank_by_name_permission_denied example_repr directory example_api
              "alice" "Adept" "Aspirant" None (Some "42") fresh _
              (PDict alice) (PStr "Novice") _ Hfind Htruthy Hrank Hcur Hdeny)
    as (env & w' & Hrun & _ & Herror & Hmessage & Hissued & _).
  exists env, w'.
  split; [exact Hrun|]. split; [exact Herror|]. split; [exact Hmessage|].
  exact Hissued.
Defined.

(** alice, a Novice, asks for her own promotion and supplies her rank. *)
Lemma change_rank_by_name_own_rank_witness :
  ∃ (reason_msg : string) (w' : world),
    change_rank_by_name example_repr directory example_api "alice" "General"
      None (Some "alice") (Some "Novice") fresh
    = (Returns (PDict (error_envelope "permission_denied" reason_msg)), w')
    ∧ issued w' = [search_request example_api "alice"].
Proof.
  assert (find_member_by_name example_repr directory example_api "alice" fresh
          = (Returns (PDict alice),
             after_request fresh (search_request example_api "alice")))
    as Hfind by (vm_compute; reflexivity).
  assert (py_getitem example_repr (PDict alice) (PStr "current_rank")
          = Returns (PStr "Novice")) as Hcur by (vm_compute; reflexivity).
  assert ("Novice" ≠ "") as Hrank by discriminate.
  assert (py_truthy (PDict alice) = true) as Htruthy by (vm_compute; reflexivity).
  destruct (change_rank_by_name_own_rank example_repr directory example_api
              "alice" "General" "Novice" None (Some "alice") fresh _
              (PDict alice) Hfind Htruthy Hrank Hcur)
    as (reason_msg & w' & Hrun & Hissued & _).
  exists reason_msg, w'. split; [exact Hrun|exact Hissued].
Defined.

(** ** Where the code departs from the specification *)

Lemma rank_mutation_issued (l : list http_request) :
  "PATCH" ∈ (req_method <$> l) → Exists is_rank_mutation l.
Proof.
  intros Hin. apply list_elem_of_fmap in Hin as (q & Hq & Hin).
  apply Exists_exists. exists q. split; [exact Hin|]. by unfold is_rank_mutation.
Qed.

(** C7 as stated fails: the service answers 429 with a body that has an
    [error] field of its own, and that field, not 'rate_limit', is the
    [error] of the envelope. *)
Lemma request_rate_limit_error_replaced :
  ∃ (body env : gmap string pyval) (w' : world),
    throttled (issued fresh) (request_of example_api "GET" "/status" (Kwargs None None))
      = Response 429 (Returns (PDict body))
    ∧ _request throttled example_api "GET" "/status" (Kwargs None None) fresh
      = (Returns (PDict env), w')
    ∧ env !! "error" = Some (PStr "too_many_requests")
    ∧ env !! "error" ≠ Some (PStr "rate_limit").
Proof.
  exists {[ "error" := PStr "too_many_requests"; "retry_after" := PInt 30 ]},
         ({[ "error" := PStr "too_many_requests"; "retry_after" := PInt 30 ]}
          ∪ error_envelope "rate_limit" rate_limit_msg),
         (after_request fresh (request_of example_api "GET" "/status" (Kwargs None None))).
  split; [reflexivity|]. split; [reflexivity|].
  assert (({[ "error" := PStr "too_many_requests"; "retry_after" := PInt 30 ]}
           ∪ error_envelope "rate_limit" rate_limit_msg : gmap string pyval) !! "error"
          = Some (PStr "too_many_requests")) as Herr by (vm_compute; reflexivity).
  split; [exact Herr|]. rewrite Herr. discriminate.
Qed.

(** C1 as stated fails: alice is resolved, the rank supplied is the
    empty string, which [can_modify_rank] denies on alice's rank; yet
    [change_rank_by_name] makes no call to [can_modify_rank], issues
    the PATCH and returns the service's answer to it. *)
Lemma change_rank_by_name_empty_rank_unchecked :
  let run := change_rank_by_name example_repr directory example_api "alice" "General"
               None (Some "1001") (Some "") fresh in
  find_member_by_name example_repr directory example_api "alice" fresh
    = (Returns (PDict alice), after_request fresh (search_request example_api "alice"))
  ∧ py_getitem example_repr (PDict alice) (PStr "current_rank") = Returns (PStr "Novice")
  ∧ can_modify_rank example_repr (PStr "") (PStr "Novice") None None
    = Returns (false, "Unknown user rank: ")
  ∧ run.1 = Returns (PDict {[ "success" := PBool true ]})
  ∧ run.1 ≠ Returns (PDict (error_envelope "permission_denied" "Unknown user rank: "))
  ∧ req_method <$> issued run.2 = ["GET"; "PATCH"]
  ∧ Exists is_rank_mutation (issued run.2)
  ∧ authority_calls run.2 = [].
Proof.
  intros run.
  assert (run.1 = Returns (PDict {[ "success" := PBool true ]})) as Hret
    by (vm_compute; reflexivity).
  assert (req_method <$> issued run.2 = ["GET"; "PATCH"]) as Hreq
    by (vm_compute; reflexivity).
  split; [vm_compute; reflexivity|]. split; [vm_compute; reflexivity|].
  split; [vm_compute; reflexivity|]. split; [exact Hret|].
  split.
  { rewrite Hret. intros Heq.
    apply (f_equal (λ o, match o with
                         | Returns (PDict d) => d !! "error"
                         | _ => None
                         end)) in Heq.
    vm_compute in Heq. discriminate Heq. }
  split; [exact Hreq|].
  split.
  { apply rank_mutation_issued. rewrite Hreq.
    apply (bool_decide_unpack _). vm_compute. exact I. }
  vm_compute; reflexivity.
Qed.

(** alice asks for a change of the member named alice and supplies no
    rank; the target resolved is her own record, no permission check of
    any kind is made, and the PATCH on her own id is issued. *)
Lemma change_rank_by_name_self_unchecked :
  let run := change_rank_by_name example_repr directory example_api "alice" "General"
               None (Some "1001") None fresh in
  find_member_by_name example_repr directory example_api "alice" fresh
    = (Returns (PDict alice), after_request fresh (search_request example_api "alice"))
  ∧ alice !! "discord_username" = Some (PStr "alice")
  ∧ req_method <$> issued run.2 = ["GET"; "PATCH"]
  ∧ req_url <$> issued run.2
    = [ "http://localhost:5000/api/v1/members/search";
        "http://localhost:5000/api/v1/members/7/rank" ]
  ∧ Exists is_rank_mutation (issued run.2)
  ∧ authority_calls run.2 = [].
Proof.
  intros run.
  assert (req_method <$> issued run.2 = ["GET"; "PATCH"]) as Hreq
    by (vm_compute; reflexivity).
  split; [vm_compute; reflexivity|]. split; [vm_compute; reflexivity|].
  split; [exact Hreq|]. split; [vm_compute; reflexivity|].
  split.
  { apply rank_mutation_issued. rewrite Hreq.
    apply (bool_decide_unpack _). vm_compute. exact I. }
  vm_compute; reflexivity.
Qed.

(** * Further properties of the client *)

(** ** What a run adds to the history *)

Section RunFacts.

Variable py_repr : pyval → string.
Variable transport : list http_request → http_request → http_result.
Variable self : TFSystemAPI.

Lemma adds_one_request (P : http_request → Prop) (method endpoint : string)
    (kw : kwargs) :
  P (request_of self method endpoint kw) →
  adds_one P (_request transport self method endpoint kw).
Proof.
  intros HP w w' o Hrun. apply _request_world in Hrun as ->. by eexists.
Qed.

Lemma adds_one_only {A} (P : http_request → Prop) (m : M A) :
  adds_one P m → adds_only P m.
Proof.
  intros Hone w w' o Hrun. destruct (Hone w w' o Hrun) as (q & -> & HP).
  exists [q]. split; [reflexivity|]. by constructor.
Qed.

Lemma adds_only_lift {A} (P : http_request → Prop) (o : outcome A) :
  adds_only P (lift o).
Proof.
  intros w w' o' [= _ <-]. exists []. by rewrite app_nil_r.
Qed.

Lemma adds_only_ret {A} (P : http_request → Prop) (a : A) :
  adds_only P (mret a).
Proof.
  intros w w' o' [= _ <-]. exists []. by rewrite app_nil_r.
Qed.

Lemma adds_only_bind {A B} (P : http_request → Prop) (m : M A) (k : A → M B) :
  adds_only P m → (∀ a, adds_only P (k a)) → adds_only P (m ≫= k).
Proof.
  intros Hm Hk w w' o. unfold mbind, M_bind.
  destruct (m w) as [[a|e] w1] eqn:Hrun; destruct (Hm _ _ _ Hrun) as (new1 & Hw1 & H1).
  - intros Hrun2. destruct (Hk a _ _ _ Hrun2) as (new2 & Hw2 & H2).
    exists (new1 ++ new2). split; [by rewrite Hw2, Hw1, app_assoc|].
    by apply Forall_app.
  - intros [= _ <-]. by exists new1.
Qed.

Lemma adds_only_call_can_modify_rank (P : http_request → Prop)
    (user_rank target_rank : pyval) :
  adds_only P (call_can_modify_rank py_repr user_rank target_rank).
Proof.
  intros w w' o [= _ <-]. exists []. by rewrite app_nil_r.
Qed.

Lemma request_of_authorized (method endpoint : string) (kw : kwargs) :
  authorized self (request_of self method endpoint kw).
Proof. split; [reflexivity|]. by exists endpoint. Qed.

Lemma adds_only_find_member_by_name (P : http_request → Prop) (name : string) :
  P (search_request self name) →
  adds_only P (find_member_by_name py_repr transport self name).
Proof.
  intros HP. apply adds_only_bind.
  - by apply adds_one_only, adds_one_request.
  - intros result. apply adds_only_lift.
Qed.

Lemma adds_only_change_rank_by_name (P : http_request → Prop)
    (member_name new_rank : string) (reason discord_user_id user_rank : option string) :
  (∀ method endpoint kw, P (request_of self method endpoint kw)) →
  adds_only P (change_rank_by_name py_repr transport self member_name new_rank
                 reason discord_user_id user_rank).
Proof.
  intros HP. unfold change_rank_by_name. apply adds_only_bind.
  { apply adds_only_find_member_by_name, HP. }
  intros member. destruct (negb (py_truthy member)); [apply adds_only_ret|].
  assert (adds_only P
            (lift (py_getitem py_repr member (PStr "id"))
             ≫= λ member_id, change_member_rank py_repr transport self member_id
                               new_rank reason discord_user_id)) as Hchange.
  { apply adds_only_bind; [apply adds_only_lift|].
    intros member_id. apply adds_one_only, adds_one_request, HP. }
  destruct user_rank as [rank|]; [|exact Hchange].
  destruct (str_truthy (Some rank)); [|exact Hchange].
  apply adds_only_bind; [apply adds_only_lift|]. intros target_rank.
  apply adds_only_bind; [apply adds_only_call_can_modify_rank|].
  intros [can_modify reason_msg].
  destruct (negb can_modify); [apply adds_only_ret|exact Hchange].
Qed.

End RunFacts.

Section OperationFacts.

Variable py_repr : pyval → string.
Variable transport : list http_request → http_request → http_result.
Variable self : TFSystemAPI.

(** X1.  Whatever the service answers, every request that any
    operation of the client issues carries the client's headers, hence
    its bearer credential, and goes to a URL under the client's base
    URL. *)
Theorem client_requests_authorized :
  adds_only (authorized self) (get_status transport self)
  ∧ adds_only (authorized self) (verify_auth transport self)
  ∧ (∀ search rank limit,
       adds_only (authorized self) (get_members transport self search rank limit))
  ∧ (∀ member_id,
       adds_only (authorized self) (get_member py_repr transport self member_id))
  ∧ (∀ name field,
       adds_only (authorized self) (search_member transport self name field))
  ∧ (∀ member_id new_rank reason discord_user_id,
       adds_only (authorized self)
         (change_member_rank py_repr transport self member_id new_rank reason
            discord_user_id))
  ∧ (∀ discord_username roblox_username current_rank discord_user_id,
       adds_only (authorized self)
         (add_member transport self discord_username roblox_username current_rank
            discord_user_id))
  ∧ (∀ member_id discord_user_id,
       adds_only (authorized self)
         (remove_member py_repr transport self member_id discord_user_id))
  ∧ adds_only (authorized self) (get_ranks transport self)
  ∧ (∀ member_id activity_type description activity_date discord_user_id,
       adds_only (authorized self)
         (log_activity transport self member_id activity_type description
            activity_date discord_user_id))
  ∧ (∀ member_id limit,
       adds_only (authorized self)
         (get_member_activities py_repr transport self member_id limit))
  ∧ (∀ name,
       adds_only (authorized self) (find_member_by_name py_repr transport self name))
  ∧ (∀ member_name new_rank reason discord_user_id user_rank,
       adds_only (authorized self)
         (change_rank_by_name py_repr transport self member_name new_rank reason
            discord_user_id user_rank)).
Proof.
  unfold get_status, verify_auth, get_members, get_member, search_member,
    change_member_rank, add_member, remove_member, get_ranks, log_activity,
    get_member_activities.
  repeat split; intros;
    first [ apply adds_only_change_rank_by_name; intros
          | apply adds_only_find_member_by_name
          | apply adds_one_only, adds_one_request ];
    apply request_of_authorized.
Qed.

Lemma adds_one_find_member_by_name (P : http_request → Prop) (name : string) :
  P (search_request self name) →
  adds_one P (find_member_by_name py_repr transport self name).
Proof.
  intros HP w w' o Hrun. apply find_member_by_name_world in Hrun as ->. by eexists.
Qed.

(** X2.  The operations that read (status, member list, one member,
    search, ranks, a member's activities, find by name) each issue
    exactly one request, a GET without a JSON body, and make no call
    to the authority: none of them can issue a rank mutation.  For the
    two that put a member id in the path, this is for an id that
    [str] can print. *)
Theorem read_operations_issue_one_get :
  let reads (q : http_request) :=
    req_method q = "GET" ∧ req_json q = None ∧ ¬ is_rank_mutation q in
  adds_one reads (get_status transport self)
  ∧ (∀ search rank limit, adds_one reads (get_members transport self search rank limit))
  ∧ (∀ member_id,
       str_defined member_id = true →
       adds_one reads (get_member py_repr transport self member_id))
  ∧ (∀ name field, adds_one reads (search_member transport self name field))
  ∧ adds_one reads (get_ranks transport self)
  ∧ (∀ member_id limit,
       str_defined member_id = true →
       adds_one reads (get_member_activities py_repr transport self member_id limit))
  ∧ (∀ name, adds_one reads (find_member_by_name py_repr transport self name)).
Proof.
  intros reads.
  unfold get_status, get_members, get_member, search_member, get_ranks,
    get_member_activities.
  repeat split; intros;
    first [ apply adds_one_find_member_by_name | apply adds_one_request ];
    (split; [reflexivity|split; [reflexivity|discriminate]]).
Qed.

End OperationFacts.

(** ** The constructor *)

Lemma str_or_truthy (o : option string) (d : string) :
  str_truthy o = true → Some (str_or o d) = o.
Proof.
  unfold str_or, str_truthy. destruct o as [s|]; [|discriminate].
  by destruct (bool_decide (s = "")).
Qed.

Lemma str_or_falsy (o : option string) (d : string) :
  str_truthy o = false → str_or o d = d.
Proof.
  unfold str_or, str_truthy. destruct o as [s|]; [|reflexivity].
  by destruct (bool_decide (s = "")).
Qed.

Lemma str_or_empty (o : option string) (d : string) :
  str_or o d = "" ↔ str_truthy o = false ∧ d = "".
Proof.
  destruct (str_truthy o) eqn:Ho.
  - pose proof (str_or_truthy o d Ho) as Hor. split; [|by intros [? _]].
    intros Hempty. rewrite Hempty in Hor. subst o.
    cbn in Ho. by rewrite bool_decide_eq_true_2 in Ho.
  - rewrite (str_or_falsy o d Ho). split; [by intros ->|by intros [_ ->]].
Qed.

(** X3.  Construction fails exactly when neither the argument nor the
    environment gives a key that is not empty, and then with a
    [ValueError]. *)
Theorem TFSystemAPI_init_fails_without_key (env : string → option string)
    (url key : option string) :
  ((∃ e, TFSystemAPI_init env url key = Raises e)
   ↔ str_truthy key = false
     ∧ (env "TF_SYSTEM_API_KEY" = None ∨ env "TF_SYSTEM_API_KEY" = Some ""))
  ∧ (∀ e, TFSystemAPI_init env url key = Raises e → exc_type e = "ValueError").
Proof.
  unfold TFSystemAPI_init, os_getenv.
  destruct (bool_decide_reflect
              (str_or key (default "" (env "TF_SYSTEM_API_KEY")) = "")) as [Hk|Hk];
    rewrite str_or_empty in Hk.
  - destruct Hk as [Hkey Henv]. split; [|by intros e [= <-]].
    split; [intros _|by eexists]. split; [exact Hkey|].
    destruct (env "TF_SYSTEM_API_KEY") as [v|]; [right|by left].
    cbn in Henv. by subst v.
  - split; [|discriminate]. split; [by intros [e ?]|].
    intros [Hkey Henv]. destruct Hk. split; [exact Hkey|].
    by destruct Henv as [-> | ->].
Qed.

(** X4.  A constructed client has a key that is not empty, taken from
    the argument when that is not empty and from the environment
    otherwise; its Authorization header is 'Bearer ' followed by that
    key; its base URL is the argument when not empty, else the
    environment's value when set, else the localhost default. *)
Theorem TFSystemAPI_init_client (env : string → option string)
    (url key : option string) (client : TFSystemAPI) :
  TFSystemAPI_init env url key = Returns client →
  api_key client ≠ ""
  ∧ (str_truthy key = true → Some (api_key client) = key)
  ∧ (str_truthy key = false → Some (api_key client) = env "TF_SYSTEM_API_KEY")
  ∧ headers client !! "Authorization" = Some ("Bearer " +:+ api_key client)
  ∧ headers client !! "Content-Type" = Some "application/json"
  ∧ (str_truthy url = true → Some (api_url client) = url)
  ∧ (str_truthy url = false →
       api_url client
       = default "http://localhost:5000/api/v1" (env "TF_SYSTEM_API_URL")).
Proof.
  unfold TFSystemAPI_init, os_getenv.
  destruct (bool_decide_reflect
              (str_or key (default "" (env "TF_SYSTEM_API_KEY")) = "")) as [|Hkey];
    [discriminate|].
  intros [= <-]. cbn [api_key api_url headers].
  split; [exact Hkey|].
  split; [apply str_or_truthy|].
  split.
  { intros Hfalsy. rewrite str_or_falsy in Hkey |- * by done.
    by destruct (env "TF_SYSTEM_API_KEY"). }
  split; [by rewrite lookup_insert_eq|].
  split; [by rewrite lookup_insert_ne, lookup_singleton_eq|].
  split; [apply str_or_truthy|apply str_or_falsy].
Qed.

(** ** More on the permission decision *)

Section AuthorityOrder.

Variable py_repr : pyval → string.

Lemma position_lookup (s : string) (l : Z) :
  l ≠ 0 → position s = l → RANK_HIERARCHY !! s = Some l.
Proof.
  intros Hl Hp. rewrite <- rank_lookup_position in Hp.
  destruct (RANK_HIERARCHY !! s) as [l'|]; cbn in Hp; [by subst|by subst].
Qed.

Lemma self_check_fires (target_member_id user_member_id : option Z) :
  id_truthy target_member_id && id_truthy user_member_id
    && id_eqb target_member_id user_member_id = true
  ↔ ∃ id, id ≠ 0 ∧ target_member_id = Some id ∧ user_member_id = Some id.
Proof.
  split.
  - destruct target_member_id as [t|], user_member_id as [u|]; cbn;
      rewrite ?andb_false_r; try discriminate.
    intros [[Ht _]%andb_prop Heq%Z.eqb_eq]%andb_prop. subst u.
    exists t. split; [|done]. intros ->. discriminate Ht.
  - intros (id & Hid & -> & ->). cbn. rewrite Z.eqb_refl.
    by destruct (Z.eqb_spec id 0).
Qed.

Lemma get_rank_level_cases (v : pyval) :
  (∃ s, v = PStr s) ∨ get_rank_level v = Returns 0
  ∨ ∃ e, get_rank_level v = Raises e.
Proof. destruct v; cbn; eauto. Qed.

(** X5.  Permission is granted only to a rank of the table acting on a
    rank of the table that is strictly lower, whatever ids are passed:
    a granted result means both ranks are strings of the table, the
    target's level is below the user's, and the ids are not both
    supplied, not 0 and equal. *)
Theorem can_modify_rank_grant_sound (user_rank target_rank : pyval)
    (target_member_id user_member_id : option Z) (reason : string) :
  can_modify_rank py_repr user_rank target_rank target_member_id user_member_id
    = Returns (true, reason) →
  ∃ (a b : string) (la lb : Z),
    user_rank = PStr a ∧ target_rank = PStr b
    ∧ RANK_HIERARCHY !! a = Some la ∧ RANK_HIERARCHY !! b = Some lb
    ∧ lb < la
    ∧ reason = "Permission granted"
    ∧ ¬ (∃ id, id ≠ 0 ∧ target_member_id = Some id ∧ user_member_id = Some id).
Proof.
  unfold can_modify_rank.
  destruct (id_truthy target_member_id && id_truthy user_member_id
            && id_eqb target_member_id user_member_id) eqn:Hself; [discriminate|].
  destruct (get_rank_level_cases user_rank) as [[a ->]|[Hu|[e Hu]]];
    [|rewrite Hu; unfold mbind, outcome_bind;
      by destruct (get_rank_level target_rank)
     |rewrite Hu; discriminate].
  destruct (get_rank_level_cases target_rank) as [[b ->]|[Ht|[e Ht]]];
    [|rewrite get_rank_level_str, Ht; unfold mbind, outcome_bind;
      by destruct (position a =? 0)
     |rewrite get_rank_level_str, Ht; unfold mbind, outcome_bind; discriminate].
  rewrite !get_rank_level_str. unfold mbind, outcome_bind.
  destruct (Z.eqb_spec (position a) 0) as [|Ha]; [discriminate|].
  destruct (Z.eqb_spec (position b) 0) as [|Hb]; [discriminate|].
  destruct (Z.leb_spec (position a) (position b)) as [|Hlt]; [discriminate|].
  intros [= <-]. exists a, b, (position a), (position b).
  repeat split; try done; try by apply position_lookup.
  intros Hfires%self_check_fires. congruence.
Qed.

(** X6.  On ranks that [str] can print when they can be hashed (no int
    of more than 4300 digits), [can_modify_rank] raises exactly when
    the self-modification check does not fire and one of the two ranks
    cannot be hashed (a list or a dict); the exception is a
    [TypeError]. *)
Theorem can_modify_rank_raises_iff (user_rank target_rank : pyval)
    (target_member_id user_member_id : option Z) :
  (py_hashable user_rank = true → str_defined user_rank = true) →
  (py_hashable target_rank = true → str_defined target_rank = true) →
  ((∃ e, can_modify_rank py_repr user_rank target_rank target_member_id
           user_member_id = Raises e)
   ↔ ¬ (∃ id, id ≠ 0 ∧ target_member_id = Some id ∧ user_member_id = Some id)
     ∧ (py_hashable user_rank = false ∨ py_hashable target_rank = false))
  ∧ (∀ e, can_modify_rank py_repr user_rank target_rank target_member_id
            user_member_id = Raises e → exc_type e = "TypeError").
Proof.
  intros _ _. rewrite <- self_check_fires. unfold can_modify_rank.
  destruct (id_truthy target_member_id && id_truthy user_member_id
            && id_eqb target_member_id user_member_id).
  { split; [|discriminate]. split; [by intros [e ?]|by intros [[] _]]. }
  assert (∀ v, py_hashable v = true → ∃ l, get_rank_level v = Returns l) as Hyes.
  { intros v Hv. destruct v; cbn; eauto; discriminate. }
  assert (∀ v, py_hashable v = false →
            ∃ e, get_rank_level v = Raises e ∧ exc_type e = "TypeError") as Hno.
  { intros v Hv. destruct v; try discriminate; cbn; eauto. }
  destruct (py_hashable user_rank) eqn:Hu.
  - destruct (Hyes _ Hu) as [lu ->]. cbn.
    destruct (py_hashable target_rank) eqn:Ht.
    + destruct (Hyes _ Ht) as [lt ->]. cbn.
      assert (∀ e, (if lu =? 0 then Returns (false, unknown_user_msg py_repr user_rank)
                    else if lt =? 0
                         then Returns (false, unknown_target_msg py_repr target_rank)
                         else if lu <=? lt
                              then Returns (false,
                                     not_higher_msg py_repr user_rank target_rank)
                              else Returns (true, "Permission granted"))
                   ≠ Raises e) as Hnever.
      { intros e. by destruct (lu =? 0), (lt =? 0), (lu <=? lt). }
      split; [|by intros e ?%Hnever].
      split; [by intros [e ?%Hnever]|]. by intros [_ [?|?]].
    + destruct (Hno _ Ht) as (e & -> & He). cbn.
      split; [|by intros e' [= <-]]. split; [by auto|by eexists].
  - destruct (Hno _ Hu) as (e & -> & He). cbn.
    split; [|by intros e' [= <-]]. split; [by auto|by eexists].
Qed.

End AuthorityOrder.

Section AuthorityOrderFacts.

Variable py_repr : pyval → string.

(** Without ids, [a] may modify [b] exactly when both are ranks of the
    table and the position of [b] is below that of [a]. *)
Lemma may_modify_positions (a b : string) :
  (∃ reason, can_modify_rank py_repr (PStr a) (PStr b) None None
             = Returns (true, reason))
  ↔ 0 < position b < position a.
Proof.
  rewrite can_modify_rank_levels by reflexivity.
  assert (0 ≤ position a ∧ 0 ≤ position b) as [Ha Hb].
  { split; rewrite <- rank_lookup_position;
      (destruct (RANK_HIERARCHY !! _) as [l|] eqn:Hl; cbn; [|lia]);
      apply rank_level_range in Hl; lia. }
  destruct (Z.eqb_spec (position a) 0); [split; [by intros [? [=]]|lia]|].
  destruct (Z.eqb_spec (position b) 0); [split; [by intros [? [=]]|lia]|].
  destruct (Z.leb_spec (position a) (position b));
    (split; [intros [? [=]]; lia|intros; try lia; by eexists]).
Qed.

(** X7.  On rank names, without ids, "may modify" is a strict order:
    no rank may modify itself, two ranks never may modify each other,
    and it is transitive; of two different ranks of the table exactly
    one may modify the other. *)
Theorem can_modify_rank_strict_order :
  let may (a b : string) :=
    ∃ reason, can_modify_rank py_repr (PStr a) (PStr b) None None
              = Returns (true, reason) in
  (∀ a, ¬ may a a)
  ∧ (∀ a b, may a b → ¬ may b a)
  ∧ (∀ a b c, may a b → may b c → may a c)
  ∧ (∀ a b, a ∈ rank_order → b ∈ rank_order → a ≠ b →
       (may a b ∨ may b a) ∧ ¬ (may a b ∧ may b a)).
Proof.
  intros may. subst may. cbn beta.
  split; [intros a; rewrite may_modify_positions; lia|].
  split; [intros a b; rewrite !may_modify_positions; lia|].
  split; [intros a b c; rewrite !may_modify_positions; lia|].
  intros a b [la Ha]%rank_level_in_order [lb Hb]%rank_level_in_order Hab.
  rewrite !may_modify_positions, <- !rank_lookup_position, Ha, Hb. cbn.
  pose proof (rank_level_range _ _ Ha). pose proof (rank_level_range _ _ Hb).
  assert (la ≠ lb) by (intros ->; apply Hab; eapply rank_level_inj; eauto).
  lia.
Qed.

(** X8.  The decision is the self-modification denial exactly when both
    ids are supplied, equal and not 0; then the ranks are not looked
    at, so not even a rank that cannot be hashed makes it raise. *)
Theorem can_modify_rank_self_denial_iff (user_rank target_rank : pyval)
    (target_member_id user_member_id : option Z) :
  can_modify_rank py_repr user_rank target_rank target_member_id user_member_id
    = Returns (false, "You cannot change your own rank.")
  ↔ ∃ id, id ≠ 0 ∧ target_member_id = Some id ∧ user_member_id = Some id.
Proof.
  rewrite <- self_check_fires. unfold can_modify_rank.
  destruct (id_truthy target_member_id && id_truthy user_member_id
            && id_eqb target_member_id user_member_id); [done|].
  split; [|discriminate].
  destruct (get_rank_level user_rank) as [lu|]; [|discriminate].
  destruct (get_rank_level target_rank) as [lt|]; [|discriminate].
  unfold mbind, outcome_bind.
  destruct (lu =? 0); [discriminate|].
  destruct (lt =? 0); [discriminate|].
  destruct (lu <=? lt); discriminate.
Qed.

End AuthorityOrderFacts.

(** ** More on the convenience operations *)

Section ChangeRankRuns.

Variable py_repr : pyval → string.
Variable transport : list http_request → http_request → http_result.
Variable self : TFSystemAPI.

Lemma first_match_error_envelope (error message : string) :
  first_match py_repr (PDict (error_envelope error message)) = Returns PNone.
Proof.
  rewrite first_match_dict.
  - unfold success_of, error_envelope. by rewrite lookup_insert_eq.
  - unfold error_envelope. intros v.
    rewrite !lookup_insert_ne, lookup_singleton_ne by done. discriminate.
Qed.

(** X9.  A search that fails never leads to a mutation, and its cause
    is not passed on: when the [try] block of the search request meets
    an [Exception], [change_rank_by_name] answers 'member_not_found'
    (not 'connection_error' or 'unknown_error'); an exception outside
    [Exception] reaches the caller.  In both cases the search is the
    only request issued. *)
Theorem change_rank_by_name_search_failure (member_name new_rank : string)
    (reason discord_user_id user_rank : option string) (w : world) (e : py_exc) :
  raised_in_try (transport (issued w) (search_request self member_name)) = Some e →
  change_rank_by_name py_repr transport self member_name new_rank reason
    discord_user_id user_rank w
  = (match exc_base_of e with
     | BaseExceptionOnly => Raises e
     | _ => Returns (PDict (error_envelope "member_not_found"
                              (member_not_found_msg member_name)))
     end,
     after_request w (search_request self member_name)).
Proof.
  intros Hraised.
  pose proof (_request_raised transport self "GET" "/members/search"
                (Kwargs (Some {[ "q" := PStr member_name; "field" := PStr "both" ]})
                        None) w e Hraised) as Hsearch.
  unfold change_rank_by_name, find_member_by_name, search_member, mbind, M_bind, lift.
  rewrite Hsearch.
  destruct (exc_base_of e); [| |reflexivity];
    by rewrite first_match_error_envelope.
Qed.

(** X10.  A search answered (with a status other than 429) by a body
    that is not a JSON object makes [find_member_by_name], and with it
    [change_rank_by_name], raise an [AttributeError]: the body is
    passed through by [_request] and has no [get]. *)
Theorem find_member_by_name_not_object (member_name new_rank : string)
    (reason discord_user_id user_rank : option string) (w : world)
    (status : Z) (body : pyval) :
  transport (issued w) (search_request self member_name)
    = Response status (Returns body) →
  status ≠ 429 →
  (∀ d, body ≠ PDict d) →
  let e := AttributeError
             (squote (py_type_name body) +:+ " object has no attribute 'get'") in
  find_member_by_name py_repr transport self member_name w
    = (Raises e, after_request w (search_request self member_name))
  ∧ change_rank_by_name py_repr transport self member_name new_rank reason
      discord_user_id user_rank w
    = (Raises e, after_request w (search_request self member_name)).
Proof.
  intros Ht Hstatus Hbody e.
  pose proof (_request_response transport self "GET" "/members/search"
                (Kwargs (Some {[ "q" := PStr member_name; "field" := PStr "both" ]})
                        None) w status body Ht Hstatus) as Hsearch.
  assert (first_match py_repr body = Raises e) as Hfirst.
  { destruct body; try reflexivity. by destruct (Hbody d). }
  unfold change_rank_by_name, find_member_by_name, search_member, mbind, M_bind, lift.
  by rewrite Hsearch, Hfirst.
Qed.

(** X11.  When the target is resolved and no rank that is not empty is
    supplied, or the supplied rank is allowed by [can_modify_rank],
    [change_rank_by_name] is [change_member_rank] on the resolved
    record's [id], run after the search: its result is that call's
    result, unchanged. *)
Theorem change_rank_by_name_delegates (member_name new_rank : string)
    (reason discord_user_id user_rank : option string) (w w1 : world)
    (member member_id : pyval) :
  find_member_by_name py_repr transport self member_name w = (Returns member, w1) →
  py_truthy member = true →
  py_getitem py_repr member (PStr "id") = Returns member_id →
  (str_truthy user_rank = false →
     change_rank_by_name py_repr transport self member_name new_rank reason
       discord_user_id user_rank w
     = change_member_rank py_repr transport self member_id new_rank reason
         discord_user_id w1)
  ∧ (∀ (rank : string) (target_rank : pyval) (msg : string),
       user_rank = Some rank → rank ≠ "" →
       py_getitem py_repr member (PStr "current_rank") = Returns target_rank →
       can_modify_rank py_repr (PStr rank) target_rank None None
         = Returns (true, msg) →
       change_rank_by_name py_repr transport self member_name new_rank reason
         discord_user_id user_rank w
       = change_member_rank py_repr transport self member_id new_rank reason
           discord_user_id
           (World (issued w1) (authority_calls w1 ++ [(PStr rank, target_rank)]))).
Proof.
  intros Hfind Htruthy Hid. split.
  - intros Hfalsy.
    unfold change_rank_by_name, mbind at 1, M_bind. rewrite Hfind, Htruthy.
    cbn [negb].
    destruct user_rank as [rank|]; [rewrite Hfalsy|];
      unfold mbind, M_bind, lift; by rewrite Hid.
  - intros rank target_rank msg -> Hrank Hcur Hallow.
    unfold change_rank_by_name, mbind at 1, M_bind. rewrite Hfind, Htruthy.
    cbn [negb str_truthy]. rewrite bool_decide_eq_false_2 by done. cbn [negb].
    unfold mbind, M_bind, lift, call_can_modify_rank.
    by rewrite Hcur, Hallow, Hid.
Qed.

End ChangeRankRuns.

Section ChangeRankTrace.

Variable py_repr : pyval → string.
Variable transport : list http_request → http_request → http_result.
Variable self : TFSystemAPI.

(** The two ways a run of [change_rank_by_name] can go: it stops with
    the search as its only request, or it resolves a record, gets past
    the permission check and hands over to [change_member_rank]. *)
Lemma change_rank_by_name_cases (member_name new_rank : string)
    (reason discord_user_id user_rank : option string) (w w' : world)
    (o : outcome pyval) :
  change_rank_by_name py_repr transport self member_name new_rank reason
    discord_user_id user_rank w = (o, w') →
  issued w' = issued w ++ [search_request self member_name]
  ∨ ∃ (member member_id : pyval) (w1 : world),
      find_member_by_name py_repr transport self member_name w
        = (Returns member, after_request w (search_request self member_name))
      ∧ py_truthy member = true
      ∧ py_getitem py_repr member (PStr "id") = Returns member_id
      ∧ issued w1 = issued w ++ [search_request self member_name]
      ∧ change_member_rank py_repr transport self member_id new_rank reason
          discord_user_id w1 = (o, w')
      ∧ (str_truthy user_rank = false
         ∨ ∃ (rank : string) (target_rank : pyval) (msg : string),
             user_rank = Some rank ∧ rank ≠ ""
             ∧ py_getitem py_repr member (PStr "current_rank") = Returns target_rank
             ∧ can_modify_rank py_repr (PStr rank) target_rank None None
               = Returns (true, msg)).
Proof.
  unfold change_rank_by_name, mbind at 1, M_bind.
  destruct (find_member_by_name _ _ _ _ w) as [[member|e] w0] eqn:Hfind;
    pose proof (find_member_by_name_world _ _ _ _ _ _ _ Hfind) as ->;
    [|intros [= _ <-]; by left].
  destruct (py_truthy member) eqn:Htruthy; cbn [negb];
    [|intros [= _ <-]; by left].
  assert (∀ w1, issued w1 = issued w ++ [search_request self member_name] →
            (lift (py_getitem py_repr member (PStr "id"))
             ≫= λ member_id, change_member_rank py_repr transport self member_id
                               new_rank reason discord_user_id) w1 = (o, w') →
            issued w' = issued w ++ [search_request self member_name]
            ∨ ∃ member_id,
                py_getitem py_repr member (PStr "id") = Returns member_id
                ∧ change_member_rank py_repr transport self member_id new_rank
                    reason discord_user_id w1 = (o, w')) as Hchange.
  { intros w1 Hw1. unfold mbind, M_bind, lift.
    destruct (py_getitem py_repr member (PStr "id")) as [member_id|e];
      [intros Hrun; right; by exists member_id|intros [= _ <-]; by left]. }
  destruct (str_truthy user_rank) eqn:Hrank.
  - destruct user_rank as [rank|]; [|discriminate Hrank].
    assert (rank ≠ "") as Hne.
    { intros ->. cbn in Hrank. by rewrite bool_decide_eq_true_2 in Hrank. }
    unfold mbind at 1, M_bind, lift.
    destruct (py_getitem py_repr member (PStr "current_rank"))
      as [target_rank|e] eqn:Hcur; [|intros [= _ <-]; by left].
    unfold mbind at 1, M_bind, call_can_modify_rank.
    destruct (can_modify_rank py_repr (PStr rank) target_rank None None)
      as [[[|] msg]|e] eqn:Hcan; cbn [negb];
      [|intros [= _ <-]; by left|intros [= _ <-]; by left].
    intros Hrun. apply Hchange in Hrun as [Hstop|[member_id [Hid Hrun]]];
      [by left| |reflexivity].
    right. exists member, member_id. eexists.
    split; [reflexivity|]. split; [exact Htruthy|]. split; [exact Hid|].
    split; [|split; [exact Hrun|]]; [reflexivity|].
    right. by exists rank, target_rank, msg.
  - assert ((lift (py_getitem py_repr member (PStr "id"))
             ≫= λ member_id, change_member_rank py_repr transport self member_id
                               new_rank reason discord_user_id)
              (after_request w (search_request self member_name)) = (o, w') →
            issued w' = issued w ++ [search_request self member_name]
            ∨ ∃ member_id,
                py_getitem py_repr member (PStr "id") = Returns member_id
                ∧ change_member_rank py_repr transport self member_id new_rank
                    reason discord_user_id
                    (after_request w (search_request self member_name)) = (o, w'))
      as Hplain by (apply Hchange; reflexivity).
    intros Hrun.
    assert (issued w' = issued w ++ [search_request self member_name]
            ∨ ∃ member_id,
                py_getitem py_repr member (PStr "id") = Returns member_id
                ∧ change_member_rank py_repr transport self member_id new_rank
                    reason discord_user_id
                    (after_request w (search_request self member_name)) = (o, w'))
      as [Hstop|[member_id [Hid Hrun']]];
      [apply Hplain; by destruct user_rank|by left|].
    right. exists member, member_id. eexists.
    split; [reflexivity|]. split; [exact Htruthy|]. split; [exact Hid|].
    split; [|split; [exact Hrun'|]]; [reflexivity|]. by left.
Qed.

(** X12.  Whatever the service answers, [change_rank_by_name] issues
    the search first and at most one request more; that request, if
    any, is the PATCH of [change_member_rank] on the id of the record
    that the search resolved. *)
Theorem change_rank_by_name_requests (member_name new_rank : string)
    (reason discord_user_id user_rank : option string) (w w' : world)
    (o : outcome pyval) :
  change_rank_by_name py_repr transport self member_name new_rank reason
    discord_user_id user_rank w = (o, w') →
  issued w' = issued w ++ [search_request self member_name]
  ∨ ∃ (member member_id : pyval) (q : http_request),
      find_member_by_name py_repr transport self member_name w
        = (Returns member, after_request w (search_request self member_name))
      ∧ py_getitem py_repr member (PStr "id") = Returns member_id
      ∧ issued w' = issued w ++ [search_request self member_name; q]
      ∧ is_rank_mutation q
      ∧ req_url q
        = api_url self +:+ "/members/" +:+ py_str py_repr member_id +:+ "/rank".
Proof.
  intros Hrun.
  destruct (change_rank_by_name_cases _ _ _ _ _ _ _ _ Hrun)
    as [Hstop|(member & member_id & w1 & Hfind & _ & Hid & Hw1 & Hpatch & _)];
    [by left|right].
  unfold change_member_rank in Hpatch. apply _request_world in Hpatch as ->.
  exists member, member_id. eexists. split; [exact Hfind|]. split; [exact Hid|].
  split; [cbn [issued after_request]; by rewrite Hw1, <- app_assoc|].
  split; reflexivity.
Qed.

(** X13.  When a rank that is not empty is supplied, a rank mutation is
    issued only for a resolved record whose current rank is a rank of
    the table strictly below the supplied rank, itself a rank of the
    table. *)
Theorem change_rank_by_name_mutation_needs_higher_rank
    (member_name new_rank rank : string) (reason discord_user_id : option string)
    (w w' : world) (o : outcome pyval) (new : list http_request) :
  change_rank_by_name py_repr transport self member_name new_rank reason
    discord_user_id (Some rank) w = (o, w') →
  rank ≠ "" →
  issued w' = issued w ++ new →
  Exists is_rank_mutation new →
  ∃ (member : pyval) (target_rank : string) (lu lt : Z),
    find_member_by_name py_repr transport self member_name w
      = (Returns member, after_request w (search_request self member_name))
    ∧ py_getitem py_repr member (PStr "current_rank") = Returns (PStr target_rank)
    ∧ RANK_HIERARCHY !! rank = Some lu
    ∧ RANK_HIERARCHY !! target_rank = Some lt
    ∧ lt < lu.
Proof.
  intros Hrun Hrank Hnew Hmut.
  destruct (change_rank_by_name_cases _ _ _ _ _ _ _ _ Hrun)
    as [Hstop|(member & member_id & w1 & Hfind & _ & _ & _ & _ & Hcheck)].
  - rewrite Hstop in Hnew. apply app_inv_head in Hnew as <-.
    apply Exists_cons in Hmut as [Hmut|Hmut%Exists_nil]; [|done].
    by apply search_request_not_mutation in Hmut.
  - destruct Hcheck as [Hfalsy|(rank' & target & msg & [= <-] & _ & Hcur & Hallow)].
    { cbn in Hfalsy. by rewrite bool_decide_eq_false_2 in Hfalsy. }
    apply can_modify_rank_grant_sound in Hallow
      as (a & b & la & lb & [= <-] & -> & Ha & Hb & Hlt & _).
    by exists member, b, la, lb.
Qed.

(** X14.  A resolved record that lacks a key.  Without [current_rank],
    a call that supplies a rank (not empty) raises [KeyError] before any
    permission check.  Without [id], no call ever issues a request
    after the search, and a call that supplies no rank raises
    [KeyError]. *)
Theorem change_rank_by_name_missing_key (member_name new_rank : string)
    (reason discord_user_id user_rank : option string) (w w1 : world)
    (d : gmap string pyval) :
  find_member_by_name py_repr transport self member_name w = (Returns (PDict d), w1) →
  py_truthy (PDict d) = true →
  (∀ rank, user_rank = Some rank → rank ≠ "" → d !! "current_rank" = None →
     change_rank_by_name py_repr transport self member_name new_rank reason
       discord_user_id user_rank w
     = (Raises (KeyError (py_repr (PStr "current_rank"))), w1))
  ∧ (d !! "id" = None →
     (∀ o w', change_rank_by_name py_repr transport self member_name new_rank
                reason discord_user_id user_rank w = (o, w') →
              issued w' = issued w ++ [search_request self member_name])
     ∧ (str_truthy user_rank = false →
        change_rank_by_name py_repr transport self member_name new_rank reason
          discord_user_id user_rank w
        = (Raises (KeyError (py_repr (PStr "id"))), w1))).
Proof.
  intros Hfind Htruthy. split; [|intros Hnoid; split].
  - intros rank -> Hrank Hcur.
    unfold change_rank_by_name, mbind at 1, M_bind. rewrite Hfind, Htruthy.
    cbn [negb str_truthy]. rewrite bool_decide_eq_false_2 by done. cbn [negb].
    unfold mbind, M_bind, lift. cbn [py_getitem]. by rewrite Hcur.
  - intros o w' Hrun.
    destruct (change_rank_by_name_cases _ _ _ _ _ _ _ _ Hrun)
      as [Hstop|(member & member_id & w2 & Hfind' & _ & Hid & _)]; [exact Hstop|].
    rewrite Hfind in Hfind'. injection Hfind' as <- _.
    cbn [py_getitem] in Hid. by rewrite Hnoid in Hid.
  - intros Hfalsy.
    unfold change_rank_by_name, mbind at 1, M_bind. rewrite Hfind, Htruthy.
    cbn [negb].
    destruct user_rank as [rank|]; [rewrite Hfalsy|];
      unfold mbind, M_bind, lift; cbn [py_getitem]; by rewrite Hnoid.
Qed.

End ChangeRankTrace.

(** ** What the bindings send *)

Lemma lookup_set_if_given_eq (key : string) (value : option string)
    (data : gmap string pyval) :
  set_if_given key value data !! key
  = match given value with
    | Some v => Some v
    | None => data !! key
    end.
Proof.
  unfold set_if_given, given. destruct value as [s|]; [|reflexivity].
  destruct (str_truthy (Some s)); [|reflexivity]. by rewrite lookup_insert_eq.
Qed.

Lemma lookup_set_if_given_ne (key key' : string) (value : option string)
    (data : gmap string pyval) :
  key ≠ key' → set_if_given key value data !! key' = data !! key'.
Proof.
  intros Hne. unfold set_if_given. destruct value as [s|]; [|reflexivity].
  destruct (str_truthy (Some s)); [|reflexivity]. by rewrite lookup_insert_ne.
Qed.

Section BindingFacts.

Variable py_repr : pyval → string.
Variable transport : list http_request → http_request → http_result.
Variable self : TFSystemAPI.

(** X15.  For a member id that [str] can print, the one request of
    [change_member_rank] is a PATCH on
    [/members/<id>/rank] whose body has the new rank, the attribution
    'Discord Bot' and a reason that is never empty: the caller's when
    that is not empty, 'Changed via Discord Bot' otherwise.  The
    requesting user's id is in the body exactly when it is given and
    not empty. *)
Theorem change_member_rank_body (member_id : pyval) (new_rank : string)
    (reason discord_user_id : option string) :
  str_defined member_id = true →
  adds_one
    (λ q, is_rank_mutation q
          ∧ req_url q
            = api_url self +:+ "/members/" +:+ py_str py_repr member_id +:+ "/rank"
          ∧ req_params q = None
          ∧ ∃ (d : gmap string pyval) (r : string),
              req_json q = Some d
              ∧ d !! "rank" = Some (PStr new_rank)
              ∧ d !! "promoted_by" = Some (PStr "Discord Bot")
              ∧ d !! "reason" = Some (PStr r)
              ∧ r ≠ ""
              ∧ (str_truthy reason = true → Some r = reason)
              ∧ (str_truthy reason = false → r = "Changed via Discord Bot")
              ∧ d !! "discord_user_id" = given discord_user_id)
    (change_member_rank py_repr transport self member_id new_rank reason
       discord_user_id).
Proof.
  intros _. unfold change_member_rank. apply adds_one_request.
  split; [reflexivity|]. split; [reflexivity|]. split; [reflexivity|].
  exists (set_if_given "discord_user_id" discord_user_id
            {[ "rank" := PStr new_rank;
               "reason" := PStr (str_or reason "Changed via Discord Bot");
               "promoted_by" := PStr "Discord Bot" ]}),
         (str_or reason "Changed via Discord Bot").
  split; [reflexivity|].
  split; [by rewrite lookup_set_if_given_ne, lookup_insert_eq|].
  split.
  { by rewrite lookup_set_if_given_ne, !lookup_insert_ne, lookup_singleton_eq. }
  split.
  { by rewrite lookup_set_if_given_ne, lookup_insert_ne, lookup_insert_eq. }
  split; [rewrite str_or_empty; by intros [_ ?]|].
  split; [apply str_or_truthy|]. split; [apply str_or_falsy|].
  rewrite lookup_set_if_given_eq.
  destruct (given discord_user_id); [reflexivity|].
  by rewrite !lookup_insert_ne, lookup_singleton_ne.
Qed.

(** X16.  [add_member], [remove_member] and [log_activity] each issue
    one request with a JSON body in which the required fields are
    always present and an optional field is present exactly when its
    argument is given and not empty; [remove_member] soft-deletes with
    a DELETE whose body is empty unless the requesting user is given
    (for a member id that [str] can print). *)
Theorem bodies_hold_what_is_given :
  (∀ discord_username roblox_username current_rank discord_user_id,
     adds_one
       (λ q, req_method q = "POST" ∧ req_url q = api_url self +:+ "/members"
             ∧ ∃ d : gmap string pyval,
                 req_json q = Some d
                 ∧ d !! "discord_username" = Some (PStr discord_username)
                 ∧ d !! "current_rank" = Some (PStr current_rank)
                 ∧ d !! "roblox_username" = given roblox_username
                 ∧ d !! "discord_user_id" = given discord_user_id)
       (add_member transport self discord_username roblox_username current_rank
          discord_user_id))
  ∧ (∀ member_id discord_user_id,
       str_defined member_id = true →
       adds_one
         (λ q, req_method q = "DELETE"
               ∧ req_url q = api_url self +:+ "/members/" +:+ py_str py_repr member_id
               ∧ ∃ d : gmap string pyval,
                   req_json q = Some d
                   ∧ d !! "discord_user_id" = given discord_user_id
                   ∧ (given discord_user_id = None → d = ∅))
         (remove_member py_repr transport self member_id discord_user_id))
  ∧ (∀ member_id activity_type description activity_date discord_user_id,
       adds_one
         (λ q, req_method q = "POST" ∧ req_url q = api_url self +:+ "/activity"
               ∧ ∃ d : gmap string pyval,
                   req_json q = Some d
                   ∧ d !! "member_id" = Some member_id
                   ∧ d !! "activity_type" = Some (PStr activity_type)
                   ∧ d !! "description" = given description
                   ∧ d !! "activity_date" = given activity_date
                   ∧ d !! "discord_user_id" = given discord_user_id)
         (log_activity transport self member_id activity_type description
            activity_date discord_user_id)).
Proof.
  split; [|split].
  - intros. unfold add_member. apply adds_one_request.
    split; [reflexivity|]. split; [reflexivity|]. eexists. split; [reflexivity|].
    split.
    { by rewrite !lookup_set_if_given_ne, lookup_insert_eq. }
    split.
    { by rewrite !lookup_set_if_given_ne, lookup_insert_ne, lookup_singleton_eq. }
    split.
    { rewrite lookup_set_if_given_ne, lookup_set_if_given_eq by done.
      destruct (given roblox_username); [reflexivity|].
      by rewrite lookup_insert_ne, lookup_singleton_ne. }
    rewrite lookup_set_if_given_eq.
    destruct (given discord_user_id); [reflexivity|].
    by rewrite lookup_set_if_given_ne, lookup_insert_ne, lookup_singleton_ne.
  - intros. unfold remove_member. apply adds_one_request.
    split; [reflexivity|]. split; [reflexivity|]. eexists. split; [reflexivity|].
    split.
    { rewrite lookup_set_if_given_eq. by destruct (given discord_user_id). }
    unfold given, set_if_given. destruct discord_user_id as [uid|]; [|reflexivity].
    by destruct (str_truthy (Some uid)).
  - intros. unfold log_activity. apply adds_one_request.
    split; [reflexivity|]. split; [reflexivity|]. eexists. split; [reflexivity|].
    split.
    { by rewrite !lookup_set_if_given_ne, lookup_insert_eq. }
    split.
    { by rewrite !lookup_set_if_given_ne, lookup_insert_ne, lookup_singleton_eq. }
    split.
    { rewrite !lookup_set_if_given_ne, lookup_set_if_given_eq by done.
      destruct (given description); [reflexivity|].
      by rewrite lookup_insert_ne, lookup_singleton_ne. }
    split.
    { rewrite lookup_set_if_given_ne, lookup_set_if_given_eq by done.
      destruct (given activity_date); [reflexivity|].
      by rewrite lookup_set_if_given_ne, lookup_insert_ne, lookup_singleton_ne. }
    rewrite lookup_set_if_given_eq.
    destruct (given discord_user_id); [reflexivity|].
    by rewrite !lookup_set_if_given_ne, lookup_insert_ne, lookup_singleton_ne.
Qed.

(** X17.  The two list operations treat a limit of 0 differently:
    [get_members] sends only parameters that are given and not empty
    or 0, so with limit 0 it sends no limit at all, while
    [get_member_activities], for a member id that [str] can print,
    always sends its limit, 0 included. *)
Theorem limit_parameters :
  (∀ search rank limit,
     adds_one
       (λ q, req_url q = api_url self +:+ "/members"
             ∧ ∃ p : gmap string pyval,
                 req_params q = Some p
                 ∧ p !! "search" = given search
                 ∧ p !! "rank" = given rank
                 ∧ p !! "limit" = (if limit =? 0 then None else Some (PInt limit))
                 ∧ (∀ k v, p !! k = Some v → py_truthy v = true))
       (get_members transport self search rank limit))
  ∧ (∀ member_id limit,
       str_defined member_id = true →
       adds_one
         (λ q, req_url q
               = api_url self +:+ "/members/" +:+ py_str py_repr member_id
                 +:+ "/activities"
               ∧ req_params q = Some {[ "limit" := PInt limit ]})
         (get_member_activities py_repr transport self member_id limit)).
Proof.
  split.
  - intros. unfold get_members. apply adds_one_request.
    split; [reflexivity|]. eexists. split; [reflexivity|].
    assert (∀ (d : gmap string pyval) k,
              set_if_nonzero "limit" limit d !! k
              = if decide (k = "limit")
                then (if limit =? 0 then d !! k else Some (PInt limit))
                else d !! k) as Hlimit.
    { intros d k. unfold set_if_nonzero. destruct (limit =? 0); [by case_decide|].
      rewrite lookup_insert. by repeat case_decide. }
    split.
    { rewrite Hlimit, decide_False, lookup_set_if_given_ne, lookup_set_if_given_eq
        by done. by destruct (given search). }
    split.
    { rewrite Hlimit, decide_False, lookup_set_if_given_eq by done.
      destruct (given rank); [reflexivity|]. by rewrite lookup_set_if_given_ne. }
    split.
    { rewrite Hlimit, decide_True, !lookup_set_if_given_ne by done.
      by destruct (limit =? 0). }
    intros k v. rewrite Hlimit.
    assert (∀ o, given o = Some v → py_truthy v = true) as Hgiven.
    { intros o. unfold given. destruct o as [s|]; cbn; [|discriminate].
      destruct (bool_decide_reflect (s = "")); cbn; [discriminate|].
      intros [= <-]. cbn. by rewrite bool_decide_eq_false_2. }
    assert (∀ k', set_if_given "rank" rank (set_if_given "search" search ∅) !! k'
                  = Some v → py_truthy v = true) as Hopt.
    { intros k'. destruct (decide ("rank" = k')) as [<-|].
      - rewrite lookup_set_if_given_eq, lookup_set_if_given_ne by done.
        destruct (given rank) eqn:Hr; [intros [= ->]; eauto|done].
      - rewrite lookup_set_if_given_ne by done.
        destruct (decide ("search" = k')) as [<-|].
        + rewrite lookup_set_if_given_eq.
          destruct (given search) eqn:Hs; [intros [= ->]; eauto|done].
        + by rewrite lookup_set_if_given_ne. }
    case_decide; [|apply Hopt].
    destruct (Z.eqb_spec limit 0); [apply Hopt|].
    intros [= <-]. cbn. by destruct (Z.eqb_spec limit 0).
  - intros. unfold get_member_activities. apply adds_one_request.
    split; reflexivity.
Qed.

End BindingFacts.

Section ChangeRankAnswers.

Variable py_repr : pyval → string.
Variable transport : list http_request → http_request → http_result.
Variable self : TFSystemAPI.

(** X18.  What the service answers to the rank PATCH is what
    [change_rank_by_name] returns: when the target is resolved and the
    permission check is skipped or passed, an answer with any status
    other than 429, an error status included, is returned as its
    parsed body, unchanged. *)
Theorem change_rank_by_name_passes_answer (member_name new_rank : string)
    (reason discord_user_id user_rank : option string) (w w1 : world)
    (member member_id body : pyval) (status : Z) :
  find_member_by_name py_repr transport self member_name w = (Returns member, w1) →
  py_truthy member = true →
  py_getitem py_repr member (PStr "id") = Returns member_id →
  (str_truthy user_rank = false
   ∨ ∃ (rank : string) (target_rank : pyval) (msg : string),
       user_rank = Some rank ∧ rank ≠ ""
       ∧ py_getitem py_repr member (PStr "current_rank") = Returns target_rank
       ∧ can_modify_rank py_repr (PStr rank) target_rank None None
         = Returns (true, msg)) →
  transport (issued w1)
    (rank_change_request py_repr self member_id new_rank reason discord_user_id)
    = Response status (Returns body) →
  status ≠ 429 →
  ∃ w', change_rank_by_name py_repr transport self member_name new_rank reason
          discord_user_id user_rank w = (Returns body, w')
        ∧ issued w'
          = issued w1
            ++ [rank_change_request py_repr self member_id new_rank reason
                  discord_user_id].
Proof.
  intros Hfind Htruthy Hid Hcheck Hanswer Hstatus.
  destruct (change_rank_by_name_delegates py_repr transport self member_name
              new_rank reason discord_user_id user_rank w w1 member member_id
              Hfind Htruthy Hid) as [Hplain Hallowed].
  assert (∀ w2, issued w2 = issued w1 →
            change_member_rank py_repr transport self member_id new_rank reason
              discord_user_id w2
            = (Returns body,
               after_request w2
                 (rank_change_request py_repr self member_id new_rank reason
                    discord_user_id))) as Hpatch.
  { intros w2 Hw2. unfold change_member_rank.
    apply (_request_response transport self _ _ _ w2 status body);
      [|exact Hstatus].
    rewrite Hw2. exact Hanswer. }
  destruct Hcheck as [Hfalsy|(rank & target_rank & msg & -> & Hrank & Hcur & Hallow)].
  - rewrite (Hplain Hfalsy), Hpatch by reflexivity. by eexists.
  - rewrite (Hallowed rank target_rank msg eq_refl Hrank Hcur Hallow),
      Hpatch by reflexivity.
    by eexists.
Qed.

(** X19.  A rate-limited search is reported as 'member_not_found': when
    the search is answered 429 with a JSON object that has no [success]
    field of its own, [change_rank_by_name] drops the 'rate_limit'
    envelope, answers 'member_not_found' and issues nothing more. *)
Theorem change_rank_by_name_search_rate_limited (member_name new_rank : string)
    (reason discord_user_id user_rank : option string) (w : world)
    (body : gmap string pyval) :
  transport (issued w) (search_request self member_name)
    = Response 429 (Returns (PDict body)) →
  body !! "success" = None →
  change_rank_by_name py_repr transport self member_name new_rank reason
    discord_user_id user_rank w
  = (Returns (PDict (error_envelope "member_not_found"
                       (member_not_found_msg member_name))),
     after_request w (search_request self member_name)).
Proof.
  intros Hanswer Hsuccess.
  assert (find_member_by_name py_repr transport self member_name w
          = (Returns PNone, after_request w (search_request self member_name)))
    as Hfind.
  { unfold find_member_by_name, search_member, _request, try_except, mbind, M_bind,
      session_request, lift.
    unfold search_request, request_of in Hanswer. rewrite Hanswer. cbn.
    unfold first_match. cbn [py_get mbind outcome_bind].
    rewrite lookup_union_r by exact Hsuccess.
    unfold error_envelope. by rewrite lookup_insert_eq. }
  eapply change_rank_by_name_none; [exact Hfind|reflexivity].
Qed.

End ChangeRankAnswers.

(** ** The further properties on the example runs *)

(** The key of the environment makes a client. *)
Lemma TFSystemAPI_init_client_witness :
  ∃ client : TFSystemAPI,
    TFSystemAPI_init example_env None None = Returns client
    ∧ api_key client ≠ ""
    ∧ headers client !! "Authorization" = Some ("Bearer " +:+ api_key client).
Proof.
  exists {| api_url := "http://localhost:5000/api/v1";
            api_key := "secret";
            headers := {[ "Authorization" := "Bearer secret";
                          "Content-Type" := "application/json" ]} |}.
  assert (TFSystemAPI_init example_env None None
          = Returns {| api_url := "http://localhost:5000/api/v1";
                       api_key := "secret";
                       headers := {[ "Authorization" := "Bearer secret";
                                     "Content-Type" := "application/json" ]} |})
    as Hinit by (vm_compute; reflexivity).
  split; [exact Hinit|].
  destruct (TFSystemAPI_init_client example_env None None _ Hinit)
    as (Hkey & _ & _ & Hauth & _).
  split; [exact Hkey|exact Hauth].
Defined.

(** The grant of a Marshal over a Novice, both with id 0. *)
Lemma can_modify_rank_grant_sound_witness :
  ∃ (a b : string) (la lb : Z),
    PStr "Marshal" = PStr a ∧ PStr "Novice" = PStr b
    ∧ RANK_HIERARCHY !! a = Some la ∧ RANK_HIERARCHY !! b = Some lb ∧ lb < la.
Proof.
  assert (can_modify_rank example_repr (PStr "Marshal") (PStr "Novice")
            (Some 0) (Some 0) = Returns (true, "Permission granted")) as Hgrant
    by (vm_compute; reflexivity).
  destruct (can_modify_rank_grant_sound example_repr _ _ _ _ _ Hgrant)
    as (a & b & la & lb & Ha & Hb & Hla & Hlb & Hlt & _).
  by exists a, b, la, lb.
Defined.

(** The connection is refused while alice is searched. *)
Lemma change_rank_by_name_search_failure_witness :
  change_rank_by_name example_repr refused example_api "alice" "General"
    None (Some "1001") (Some "Marshal") fresh
  = (Returns (PDict (error_envelope "member_not_found"
                       (member_not_found_msg "alice"))),
     after_request fresh (search_request example_api "alice")).
Proof.
  exact (change_rank_by_name_search_failure example_repr refused example_api
           "alice" "General" None (Some "1001") (Some "Marshal") fresh
           (PyExc "ClientConnectorError" ClientError
              "Cannot connect to host localhost:5000") eq_refl).
Defined.

(** The search is answered with a JSON array. *)
Lemma find_member_by_name_not_object_witness :
  find_member_by_name example_repr listing example_api "alice" fresh
  = (Raises (AttributeError "'list' object has no attribute 'get'"),
     after_request fresh (search_request example_api "alice")).
Proof.
  assert (200 ≠ 429) as Hstatus by lia.
  assert (∀ d, PList [] ≠ PDict d) as Hbody by discriminate.
  exact (proj1 (find_member_by_name_not_object example_repr listing example_api
                  "alice" "General" None None None fresh 200 (PList [])
                  eq_refl Hstatus Hbody)).
Defined.

(** The search for alice is answered 429. *)
Lemma change_rank_by_name_search_rate_limited_witness :
  change_rank_by_name example_repr throttled example_api "alice" "General"
    None None None fresh
  = (Returns (PDict (error_envelope "member_not_found"
                       (member_not_found_msg "alice"))),
     after_request fresh (search_request example_api "alice")).
Proof.
  assert (({[ "error" := PStr "too_many_requests"; "retry_after" := PInt 30 ]}
           : gmap string pyval) !! "success" = None) as Hsuccess
    by (vm_compute; reflexivity).
  exact (change_rank_by_name_search_rate_limited example_repr throttled example_api
           "alice" "General" None None None fresh _ eq_refl Hsuccess).
Defined.

Lemma find_alice (transport : list http_request → http_request → http_result) :
  transport [] (search_request example_api "alice")
    = Response 200 (Returns (PDict {[ "success" := PBool true;
                                      "matches" := PList [PDict alice] ]})) →
  find_member_by_name example_repr transport example_api "alice" fresh
  = (Returns (PDict alice), after_request fresh (search_request example_api "alice")).
Proof.
  intros Hanswer.
  unfold find_member_by_name, search_member, mbind, M_bind, lift.
  rewrite (_request_response transport example_api "GET" "/members/search" _ fresh
             200 _ Hanswer) by lia.
  vm_compute. reflexivity.
Qed.

(** alice is found and no rank is supplied: the call is the PATCH on
    her id. *)
Lemma change_rank_by_name_delegates_witness :
  change_rank_by_name example_repr directory example_api "alice" "General"
    None (Some "1001") None fresh
  = change_member_rank example_repr directory example_api (PInt 7) "General"
      None (Some "1001")
      (after_request fresh (search_request example_api "alice")).
Proof.
  assert (py_truthy (PDict alice) = true) as Htruthy by (vm_compute; reflexivity).
  assert (py_getitem example_repr (PDict alice) (PStr "id") = Returns (PInt 7))
    as Hid by (vm_compute; reflexivity).
  exact (proj1 (change_rank_by_name_delegates example_repr directory example_api
                  "alice" "General" None (Some "1001") None fresh _
                  (PDict alice) (PInt 7) (find_alice directory eq_refl) Htruthy Hid)
               eq_refl).
Defined.

(** The same call issues the search and the PATCH on alice's id. *)
Lemma change_rank_by_name_requests_witness :
  let run := change_rank_by_name example_repr directory example_api "alice"
               "General" None (Some "1001") None fresh in
  issued run.2 = issued fresh ++ [search_request example_api "alice"]
  ∨ ∃ (member member_id : pyval) (q : http_request),
      find_member_by_name example_repr directory example_api "alice" fresh
        = (Returns member, after_request fresh (search_request example_api "alice"))
      ∧ py_getitem example_repr member (PStr "id") = Returns member_id
      ∧ issued run.2 = issued fresh ++ [search_request example_api "alice"; q]
      ∧ is_rank_mutation q
      ∧ req_url q
        = api_url example_api +:+ "/members/" +:+ py_str example_repr member_id
          +:+ "/rank".
Proof.
  intros run.
  exact (change_rank_by_name_requests example_repr directory example_api "alice"
           "General" None (Some "1001") None fresh run.2 run.1
           (surjective_pairing run)).
Defined.

(** A Marshal changes alice, a Novice: the PATCH is issued, and the
    ranks are 2 below 9. *)
Lemma change_rank_by_name_mutation_needs_higher_rank_witness :
  ∃ (member : pyval) (target_rank : string) (lu lt : Z),
    find_member_by_name example_repr directory example_api "alice" fresh
      = (Returns member, after_request fresh (search_request example_api "alice"))
    ∧ py_getitem example_repr member (PStr "current_rank")
      = Returns (PStr target_rank)
    ∧ RANK_HIERARCHY !! "Marshal" = Some lu
    ∧ RANK_HIERARCHY !! target_rank = Some lt
    ∧ lt < lu.
Proof.
  pose (run := change_rank_by_name example_repr directory example_api "alice"
                 "General" None (Some "1001") (Some "Marshal") fresh).
  assert ("Marshal" ≠ "") as Hrank by discriminate.
  assert (req_method <$> issued run.2 = ["GET"; "PATCH"]) as Hreq
    by (vm_compute; reflexivity).
  assert (Exists is_rank_mutation (issued run.2)) as Hmut.
  { apply rank_mutation_issued. rewrite Hreq.
    apply (bool_decide_unpack _). vm_compute. exact I. }
  exact (change_rank_by_name_mutation_needs_higher_rank example_repr directory
           example_api "alice" "General" "Marshal" None (Some "1001") fresh
           run.2 run.1 (issued run.2) (surjective_pairing run) Hrank eq_refl Hmut).
Defined.

(** The record found has a name only: with a rank supplied the call
    raises on [current_rank]. *)
Lemma change_rank_by_name_missing_key_witness :
  change_rank_by_name example_repr nameless_directory example_api "ghost" "Adept"
    None None (Some "Marshal") fresh
  = (Raises (KeyError "'current_rank'"),
     after_request fresh (search_request example_api "ghost")).
Proof.
  pose (d := ({[ "discord_username" := PStr "ghost" ]} : gmap string pyval)).
  assert (find_member_by_name example_repr nameless_directory example_api "ghost" fresh
          = (Returns (PDict d),
             after_request fresh (search_request example_api "ghost"))) as Hfind
    by (vm_compute; reflexivity).
  assert (py_truthy (PDict d) = true) as Htruthy by (vm_compute; reflexivity).
  assert (d !! "current_rank" = None) as Hcur by (vm_compute; reflexivity).
  assert ("Marshal" ≠ "") as Hrank by discriminate.
  exact (proj1 (change_rank_by_name_missing_key example_repr nameless_directory
                  example_api "ghost" "Adept" None None (Some "Marshal") fresh _ d
                  Hfind Htruthy)
               "Marshal" eq_refl Hrank Hcur).
Defined.

(** The service refuses the change of alice with 403: its body is the
    result. *)
Lemma change_rank_by_name_passes_answer_witness :
  ∃ w', change_rank_by_name example_repr forbidding example_api "alice" "General"
          None None None fresh
        = (Returns (PDict {[ "success" := PBool false; "error" := PStr "forbidden" ]}),
           w')
        ∧ issued w'
          = issued (after_request fresh (search_request example_api "alice"))
            ++ [rank_change_request example_repr example_api (PInt 7) "General"
                  None None].
Proof.
  assert (py_truthy (PDict alice) = true) as Htruthy by (vm_compute; reflexivity).
  assert (py_getitem example_repr (PDict alice) (PStr "id") = Returns (PInt 7))
    as Hid by (vm_compute; reflexivity).
  assert (403 ≠ 429) as Hstatus by lia.
  exact (change_rank_by_name_passes_answer example_repr forbidding example_api
           "alice" "General" None None None fresh _ (PDict alice) (PInt 7) _ 403
           (find_alice forbidding eq_refl) Htruthy Hid (or_introl eq_refl)
           eq_refl Hstatus).
Defined.

(** ** The revised properties on the example runs *)

(** The connection is refused: the envelope says 'connection_error'
    and carries the cause. *)
Lemma request_returns_envelope_witness :
  ∃ v : pyval,
    _request refused example_api "GET" "/status" (Kwargs None None) fresh
      = (Returns v,
         after_request fresh (request_of example_api "GET" "/status" (Kwargs None None)))
    ∧ v = PDict (error_envelope "connection_error"
                   ("Failed to connect to TF System: "
                    +:+ "Cannot connect to host localhost:5000")).
Proof.
  assert (∀ e, raised_in_try
                 (refused (issued fresh)
                    (request_of example_api "GET" "/status" (Kwargs None None)))
               = Some e → exc_base_of e ≠ BaseExceptionOnly) as Hexc.
  { intros e [= <-]. discriminate. }
  destruct (request_returns_envelope refused example_api "GET" "/status"
              (Kwargs None None) fresh Hexc) as (v & Hrun & _ & _ & Hfail).
  exists v. split; [exact Hrun|].
  destruct (Hfail _ eq_refl) as (error & msg & -> & -> & -> & _). reflexivity.
Defined.

(** C8 as stated fails: the request is answered, by a gateway with an
    HTML page, and it is the parsing of the body that raises; the
    envelope says 'connection_error', not 'unknown_error'. *)
Lemma request_parse_failure_is_connection_error :
  ∃ (e : py_exc) (env : gmap string pyval) (w' : world),
    html_gateway (issued fresh)
      (request_of example_api "GET" "/status" (Kwargs None None))
      = Response 502 (Raises e)
    ∧ _request html_gateway example_api "GET" "/status" (Kwargs None None) fresh
      = (Returns (PDict env), w')
    ∧ env !! "error" = Some (PStr "connection_error")
    ∧ env !! "error" ≠ Some (PStr "unknown_error").
Proof.
  exists (PyExc "ContentTypeError" ClientError
            "Attempt to decode JSON with unexpected mimetype: text/html"),
         (error_envelope "connection_error"
            ("Failed to connect to TF System: "
             +:+ "Attempt to decode JSON with unexpected mimetype: text/html")),
         (after_request fresh
            (request_of example_api "GET" "/status" (Kwargs None None))).
  split; [reflexivity|]. split; [reflexivity|].
  assert (error_envelope "connection_error"
            ("Failed to connect to TF System: "
             +:+ "Attempt to decode JSON with unexpected mimetype: text/html")
          !! "error" = Some (PStr "connection_error")) as Herr
    by (vm_compute; reflexivity).
  split; [exact Herr|]. rewrite Herr. discriminate.
Qed.

(** C4, where the code departs from it.  alice asks for a change of the
    member named alice and supplies the rank 'Marshal'; the record
    resolved is her own, id 7, a Novice.  [change_rank_by_name] calls
    [can_modify_rank] with the two ranks and no ids, which allows, and
    the PATCH on her own id is issued.  Given the two ids,
    [can_modify_rank] denies the self-modification. *)
Theorem change_rank_by_name_self_change_issued :
  let run := change_rank_by_name example_repr directory example_api "alice" "General"
               None (Some "1001") (Some "Marshal") fresh in
  find_member_by_name example_repr directory example_api "alice" fresh
    = (Returns (PDict alice), after_request fresh (search_request example_api "alice"))
  ∧ alice !! "id" = Some (PInt 7)
  ∧ authority_calls run.2 = [(PStr "Marshal", PStr "Novice")]
  ∧ can_modify_rank example_repr (PStr "Marshal") (PStr "Novice") None None
    = Returns (true, "Permission granted")
  ∧ can_modify_rank example_repr (PStr "Marshal") (PStr "Novice") (Some 7) (Some 7)
    = Returns (false, "You cannot change your own rank.")
  ∧ req_url <$> issued run.2
    = [ "http://localhost:5000/api/v1/members/search";
        "http://localhost:5000/api/v1/members/7/rank" ]
  ∧ req_method <$> issued run.2 = ["GET"; "PATCH"]
  ∧ Exists is_rank_mutation (issued run.2).
Proof.
  intros run.
  assert (req_method <$> issued run.2 = ["GET"; "PATCH"]) as Hreq
    by (vm_compute; reflexivity).
  split; [vm_compute; reflexivity|]. split; [vm_compute; reflexivity|].
  split; [vm_compute; reflexivity|]. split; [vm_compute; reflexivity|].
  split; [vm_compute; reflexivity|]. split; [vm_compute; reflexivity|].
  split; [exact Hreq|].
  apply rank_mutation_issued. rewrite Hreq.
  apply (bool_decide_unpack _). vm_compute. exact I.
Qed.


(** A Marshal and a list as target rank: the list cannot be hashed. *)
Lemma can_modify_rank_raises_iff_witness :
  ∃ e, can_modify_rank example_repr (PStr "Marshal") (PList []) None None = Raises e.
Proof.
  assert (py_hashable (PStr "Marshal") = true → str_defined (PStr "Marshal") = true)
    as Huser by reflexivity.
  assert (py_hashable (PList []) = true → str_defined (PList []) = true)
    as Htarget by reflexivity.
  apply (proj1 (can_modify_rank_raises_iff example_repr (PStr "Marshal") (PList [])
                  None None Huser Htarget)).
  split; [by intros (id & _ & [=] & _)|by right].
Defined.

(** The PATCH for member 7. *)
Lemma change_member_rank_body_witness :
  str_defined (PInt 7) = true
  ∧ adds_one
      (λ q, is_rank_mutation q
            ∧ req_url q
              = api_url example_api +:+ "/members/" +:+ py_str example_repr (PInt 7)
                +:+ "/rank"
            ∧ req_params q = None
            ∧ ∃ (d : gmap string pyval) (r : string),
                req_json q = Some d
                ∧ d !! "rank" = Some (PStr "General")
                ∧ d !! "promoted_by" = Some (PStr "Discord Bot")
                ∧ d !! "reason" = Some (PStr r)
                ∧ r ≠ ""
                ∧ (str_truthy None = true → Some r = None)
                ∧ (str_truthy None = false → r = "Changed via Discord Bot")
                ∧ d !! "discord_user_id" = given (Some "1001"))
      (change_member_rank example_repr directory example_api (PInt 7) "General"
         None (Some "1001")).
Proof.
  assert (str_defined (PInt 7) = true) as Hid by (vm_compute; reflexivity).
  split; [exact Hid|].
  exact (change_member_rank_body example_repr directory example_api (PInt 7)
           "General" None (Some "1001") Hid).
Defined.
